(** * botbuilder-adapter-github: a shallow embedding of the GitHub adapter

    The adapter ([github_adapter.ts]) and its two classification
    middlewares ([eventtype_middleware.ts] and
    [GithubMessageTypeMiddleware]) are embedded as functions in a
    state-and-exception monad over an explicit [World]: the adapter
    object ([this]), the GitHub server answering API requests, and the
    trace of observable effects (console output, HTTP response calls, API
    requests, constructions of API clients, runs of the bot logic).

    JavaScript strings are modelled by [string]; a character stands for a
    UTF-16 code unit in the range U+0000..U+00FF. *)

From Stdlib Require Import ZArith List String Ascii Bool Lia.
Import ListNotations.
Local Open Scope string_scope.
Local Open Scope Z_scope.

(** ** JavaScript values used by the adapter *)

Module JS.

(** Exceptions. [HttpError] is the rejection of a request promise by the
    API client; [Unmodelled] marks behaviour that lies outside the
    fragment of the language embedded here (see [RegExp.compile]). *)
Inductive exn : Type :=
| Error (msg : string)
| TypeError (msg : string)
| RangeError (msg : string)
| HttpError (status : Z)
| Unmodelled (what : string).

Inductive completion (A : Type) : Type :=
| Return (a : A)
| Throw (e : exn).
Arguments Return {A} a.
Arguments Throw {A} e.

(** Truthiness of a string that may be [undefined]. *)
Definition truthy (o : option string) : bool :=
  match o with
  | Some s => negb (s =? "")%string
  | None => false
  end.

(** A number or a string, for identifiers that the adapter fills with
    either (comment ids and issue numbers, repository names and delivery
    ids). *)
Inductive ident : Type :=
| Num (n : Z)
| Str (s : string).

(** [s.split(sep)] for a one-character separator. *)
Fixpoint split (sep : ascii) (s : string) : list string :=
  match s with
  | EmptyString => [EmptyString]
  | String c rest =>
      if Ascii.eqb c sep then EmptyString :: split sep rest
      else match split sep rest with
           | [] => [String c EmptyString]
           | hd :: tl => String c hd :: tl
           end
  end.

Definition code (c : ascii) : Z := Z.of_N (N_of_ascii c).

(** [Buffer.from(s)]: the UTF-8 encoding of the code units of [s]. *)
Fixpoint Buffer_from (s : string) : list Z :=
  match s with
  | EmptyString => []
  | String c rest =>
      let n := code c in
      if n <? 128 then n :: Buffer_from rest
      else Z.lor 192 (Z.shiftr n 6) :: Z.lor 128 (Z.land n 63)
             :: Buffer_from rest
  end.

End JS.
Import JS.

(** ** Node's [crypto] module: SHA-1, HMAC and [timingSafeEqual] *)

Module Crypto.

Definition w32 (x : Z) : Z := x mod 2 ^ 32.
Definition add32 (x y : Z) : Z := w32 (x + y).
Definition rotl (n x : Z) : Z :=
  w32 (Z.lor (Z.shiftl x n) (Z.shiftr x (32 - n))).
Definition not32 (x : Z) : Z := Z.lxor x (2 ^ 32 - 1).

(** Big-endian bytes of a [len]-byte integer. *)
Fixpoint be_bytes (len : nat) (x : Z) : list Z :=
  match len with
  | O => []
  | S k => Z.land (Z.shiftr x (8 * Z.of_nat k)) 255 :: be_bytes k x
  end.

Definition pad (msg : list Z) : list Z :=
  let l := Z.of_nat (List.length msg) in
  let zeros := Z.to_nat ((55 - l) mod 64) in
  msg ++ 128 :: repeat 0 zeros ++ be_bytes 8 (8 * l).

Fixpoint words (n : nat) (bs : list Z) : list Z :=
  match n with
  | O => []
  | S k =>
      match bs with
      | a :: b :: c :: d :: rest =>
          (Z.shiftl a 24 + Z.shiftl b 16 + Z.shiftl c 8 + d) :: words k rest
      | _ => []
      end
  end.

(** The message schedule, newest word first: from [rev (W0..W15)] to
    [rev (W0..W79)]. *)
Fixpoint schedule (n : nat) (rw : list Z) : list Z :=
  match n with
  | O => rw
  | S k =>
      let w :=
        rotl 1 (Z.lxor (Z.lxor (nth 2 rw 0) (nth 7 rw 0))
                       (Z.lxor (nth 13 rw 0) (nth 15 rw 0))) in
      schedule k (w :: rw)
  end.

Definition state : Type := (Z * Z * Z * Z * Z)%type.

Definition round (t : Z) (w : Z) (st : state) : state :=
  let '(a, b, c, d, e) := st in
  let '(f, k) :=
    if t <? 20 then
      (Z.lor (Z.land b c) (Z.land (not32 b) d), 0x5A827999)
    else if t <? 40 then (Z.lxor (Z.lxor b c) d, 0x6ED9EBA1)
    else if t <? 60 then
      (Z.lor (Z.lor (Z.land b c) (Z.land b d)) (Z.land c d), 0x8F1BBCDC)
    else (Z.lxor (Z.lxor b c) d, 0xCA62C1D6) in
  (add32 (add32 (add32 (add32 (rotl 5 a) f) e) k) w, a, rotl 30 b, c, d).

Fixpoint rounds (t : Z) (ws : list Z) (st : state) : state :=
  match ws with
  | [] => st
  | w :: rest => rounds (t + 1) rest (round t w st)
  end.

Definition compress (h : state) (block : list Z) : state :=
  let ws := rev (schedule 64 (rev (words 16 block))) in
  let '(h0, h1, h2, h3, h4) := h in
  let '(a, b, c, d, e) := rounds 0 ws h in
  (add32 h0 a, add32 h1 b, add32 h2 c, add32 h3 d, add32 h4 e).

Fixpoint blocks (n : nat) (bs : list Z) (h : state) : state :=
  match n with
  | O => h
  | S k => blocks k (skipn 64 bs) (compress h (firstn 64 bs))
  end.

Definition init : state :=
  (0x67452301, 0xEFCDAB89, 0x98BADCFE, 0x10325476, 0xC3D2E1F0).

Definition sha1_state (msg : list Z) : state :=
  let p := pad msg in
  blocks (List.length p / 64)%nat p init.

Definition state_bytes (st : state) : list Z :=
  let '(a, b, c, d, e) := st in
  be_bytes 4 a ++ be_bytes 4 b ++ be_bytes 4 c ++ be_bytes 4 d
    ++ be_bytes 4 e.

Definition sha1 (msg : list Z) : list Z := state_bytes (sha1_state msg).

(** HMAC (RFC 2104) with SHA-1, block size 64. *)
Definition hmac_key (key : list Z) : list Z :=
  let k := if (64 <? List.length key)%nat then sha1 key else key in
  k ++ repeat 0 (64 - List.length k)%nat.

Definition hmac_sha1 (key msg : list Z) : list Z :=
  let k := hmac_key key in
  sha1 (map (Z.lxor 0x5c) k ++ sha1 (map (Z.lxor 0x36) k ++ msg)).

Definition hex_digit (n : Z) : ascii :=
  if n <? 10 then ascii_of_N (Z.to_N (48 + n))
  else ascii_of_N (Z.to_N (87 + n)).

Fixpoint hex (bs : list Z) : string :=
  match bs with
  | [] => EmptyString
  | b :: rest =>
      String (hex_digit (Z.shiftr b 4))
             (String (hex_digit (Z.land b 15)) (hex rest))
  end.

(** [crypto.createHmac('sha1', key).update(data).digest('hex')] *)
Definition createHmac_sha1_hex (key data : string) : string :=
  hex (hmac_sha1 (Buffer_from key) (Buffer_from data)).

Definition bytes_eqb (a b : list Z) : bool :=
  if list_eq_dec Z.eq_dec a b then true else false.

(** [crypto.timingSafeEqual(a, b)] raises when the two buffers do not
    have the same byte length. *)
Definition timingSafeEqual (a b : list Z) : completion bool :=
  if (List.length a =? List.length b)%nat then Return (bytes_eqb a b)
  else Throw (RangeError "Input buffers must have the same byte length").

End Crypto.

(** ** Regular expressions

    The fragment of JavaScript regular expressions that the adapter
    uses: an optional leading [^], literal characters, the classes [\w]
    and [\s], the escaped slash, the greedy postfix [+] and the flag
    [i]. *)

Module RegExp.

Inductive atom : Type :=
| Lit (c : ascii)
| Word
| Space.

Record piece : Type := { what : atom; plus : bool }.

Record t : Type :=
  { anchored : bool; pieces : list piece; ignoreCase : bool }.

Definition meta (c : ascii) : bool :=
  existsb (Ascii.eqb c)
    (list_ascii_of_string "^$.*?()[]{}|").

Definition escape (d : ascii) : option atom :=
  if Ascii.eqb d "w" then Some Word
  else if Ascii.eqb d "s" then Some Space
  else if Ascii.eqb d "/" then Some (Lit "/")
  else None.

Fixpoint parse (acc : list piece) (s : string) : option (list piece) :=
  match s with
  | EmptyString => Some (rev acc)
  | String c rest =>
      if Ascii.eqb c "\" then
        match rest with
        | String d rest' =>
            match escape d with
            | Some a => parse ({| what := a; plus := false |} :: acc) rest'
            | None => None
            end
        | EmptyString => None
        end
      else if Ascii.eqb c "+" then
        match acc with
        | p :: acc' =>
            if plus p then None
            else parse ({| what := what p; plus := true |} :: acc') rest
        | [] => None
        end
      else if meta c then None
      else parse ({| what := Lit c; plus := false |} :: acc) rest
  end.

(** [new RegExp(pattern, flags)]; [None] when the pattern or the flags
    fall outside the fragment. *)
Definition compile (pattern flags : string) : option t :=
  let ic :=
    if (flags =? "i")%string then Some true
    else if (flags =? "")%string then Some false
    else None in
  let '(anch, body) :=
    match pattern with
    | String c rest => if Ascii.eqb c "^" then (true, rest)
                       else (false, pattern)
    | EmptyString => (false, pattern)
    end in
  match ic, parse [] body with
  | Some i, Some ps =>
      Some {| anchored := anch; pieces := ps; ignoreCase := i |}
  | _, _ => None
  end.

(** Canonicalisation of a code unit under the flag [i] (upper-casing,
    within U+0000..U+00FF). *)
Definition canonicalize (c : ascii) : Z :=
  let n := code c in
  if (97 <=? n) && (n <=? 122) then n - 32
  else if (224 <=? n) && (n <=? 254) && negb (n =? 247) then n - 32
  else n.

Definition is_word (c : ascii) : bool :=
  let n := code c in
  ((48 <=? n) && (n <=? 57)) || ((65 <=? n) && (n <=? 90))
  || ((97 <=? n) && (n <=? 122)) || (n =? 95).

Definition is_space (c : ascii) : bool :=
  let n := code c in
  ((9 <=? n) && (n <=? 13)) || (n =? 32) || (n =? 160).

Definition atom_matches (ic : bool) (a : atom) (c : ascii) : bool :=
  match a with
  | Lit l => if ic then canonicalize l =? canonicalize c
             else Ascii.eqb l c
  | Word => is_word c
  | Space => is_space c
  end.

(** Backtracking match of the pieces at the head of [s]; the result is
    what follows the match. A [+] takes as many characters as it can
    and gives them back one at a time. *)
Fixpoint match_here (ic : bool) (ps : list piece) (s : string)
  : option string :=
  match ps with
  | [] => Some s
  | p :: ps' =>
      if plus p then
        (fix more (s : string) : option string :=
           match s with
           | EmptyString => None
           | String c s' =>
               if atom_matches ic (what p) c then
                 match more s' with
                 | Some r => Some r
                 | None => match_here ic ps' s'
                 end
               else None
           end) s
      else
        match s with
        | EmptyString => None
        | String c s' =>
            if atom_matches ic (what p) c then match_here ic ps' s'
            else None
        end
  end.

(** Leftmost match: what precedes it and what follows it. *)
Fixpoint search (ic : bool) (ps : list piece) (s : string)
  : option (string * string) :=
  match match_here ic ps s with
  | Some r => Some (EmptyString, r)
  | None =>
      match s with
      | EmptyString => None
      | String c s' =>
          match search ic ps s' with
          | Some (pre, r) => Some (String c pre, r)
          | None => None
          end
      end
  end.

Definition exec (re : t) (s : string) : option (string * string) :=
  if anchored re then
    match match_here (ignoreCase re) (pieces re) s with
    | Some r => Some (EmptyString, r)
    | None => None
    end
  else search (ignoreCase re) (pieces re) s.

(** [s.match(re)] is truthy *)
Definition test (re : t) (s : string) : bool :=
  match exec re s with Some _ => true | None => false end.

(** [s.replace(re, '')] *)
Definition remove (re : t) (s : string) : string :=
  match exec re s with
  | Some (pre, r) => pre ++ r
  | None => s
  end.

End RegExp.

(** The value of a single-quoted string literal: a backslash before a
    character that starts no escape sequence is dropped ([None] for the
    escape sequences not used in the adapter). *)
Fixpoint string_literal (src : string) : option string :=
  match src with
  | EmptyString => Some EmptyString
  | String c rest =>
      if Ascii.eqb c "\" then
        match rest with
        | String d rest' =>
            if existsb (Ascii.eqb d)
                 (list_ascii_of_string "bfnrtvxu0123456789")
            then None
            else option_map (String d) (string_literal rest')
        | EmptyString => None
        end
      else option_map (String c) (string_literal rest)
  end.

(** ** Data model *)

Inductive ActivityTypes : Type :=
| Message
| Event
| OtherActivity (name : string).

Inductive RoleTypes : Type :=
| User
| Bot.

(** The parts of a webhook payload that the adapter reads. The same
    object becomes the activity's [channelData], where the middlewares
    write [botkitEventType]. *)
Record GithubUser : Type :=
  { user_id : Z; user_login : string; user_type : string }.

Record Comment : Type :=
  { comment_id : Z;
    comment_body : string;
    updated_at : string;
    comment_user : GithubUser }.

Record Payload : Type :=
  { action : option string;
    number : option Z;
    comment : option Comment;
    issue : option Z;                (* issue.number *)
    repository : option string;      (* repository.full_name *)
    sender : option GithubUser;
    botkitEventType : option string }.

Record ChannelAccount : Type :=
  { account_id : option string; role : option RoleTypes }.

Record ConversationAccount : Type :=
  { isGroup : option bool;
    conversationType : option string;
    conversation_id : option ident;
    repo : option string }.

Inductive Timestamp : Type :=
| DateOf (s : string)
| DateNow.

Record Activity : Type :=
  { type : ActivityTypes;
    id : option ident;
    timestamp : option Timestamp;
    channelData : option Payload;
    channelId : option string;
    from : option ChannelAccount;
    conversation : option ConversationAccount;
    recipient : option ChannelAccount;
    text : option string;
    label : option string }.

Record ResourceResponse : Type :=
  { response_id : Z;
    response_activityId : option ident;
    response_conversation : option ConversationAccount }.

Record GithubTarget : Type :=
  { target_type : option string;
    target_id : option ident;
    owner : option string;
    target_repo : option string }.

Record GithubMessage : Type :=
  { activityId : option ident;
    target : option GithubTarget;
    message_text : option string }.

Record Identity : Type := { identity_user_id : Z; login : string }.

Record GithubAdapterOptions : Type :=
  { webhookSecret : option string; githubToken : option string }.

(** An API client; [instance] tells two constructed clients apart. *)
Record Octokit : Type :=
  { instance : nat; auth : string; userAgent : string }.

Inductive Middleware : Type :=
| GithubMessageTypeMiddleware
| GithubEventTypeMiddleware.

Record GithubAdapter : Type :=
  { options : GithubAdapterOptions;
    octokit : option Octokit;
    identity : option Identity;
    middleware : list Middleware }.

(** *** The GitHub API as seen through the client *)

Inductive ApiCall : Type :=
| users_getAuthenticated
| issues_createComment (owner repo : option string)
    (issue_number : option ident) (body : option string)
| issues_updateComment (owner repo : option string)
    (comment_id : option ident) (body : option string)
| issues_deleteComment (owner repo : option string)
    (comment_id : option ident).

Record ResponseData : Type :=
  { data_id : Z; data_login : option string }.

(** A resolved request carries a status and a [data] object, as the
    type of the client's responses says. *)
Record OctokitResponse : Type :=
  { status : Z; data : ResponseData }.

Inductive Promise : Type :=
| Resolved (r : OctokitResponse)
| Rejected (e : exn).

(** The value that a [result] variable of the adapter holds. *)
Inductive Result : Type :=
| OfResponse (r : OctokitResponse)
| OfString (s : string)
| OfPromise (p : Promise).

(** *** Requests, responses and the per-turn state *)

Record Request : Type :=
  { header : string -> option string;
    rawBody : option string;
    req_body : option Payload }.

Record TurnState : Type :=
  { httpStatus : option Z; httpBody : option string }.

Record TurnContext : Type :=
  { activity : Activity; turnState : TurnState }.

Inductive effect : Type :=
| console_error (msg : string)
| console_log
| construct (client : Octokit)
| request (client : Octokit) (call : ApiCall)
| res_status (code : option Z)
| res_send (body : string)
| res_end
| run_logic (a : Activity).

(** The server decides the outcome of a request from the number of
    requests it has received before, the client and the call. *)
Definition Server : Type := nat -> Octokit -> ApiCall -> Promise.

Record World : Type :=
  { this : GithubAdapter; server : Server; trace : list effect }.

(** ** A state-and-exception monad *)

Definition ST (S A : Type) : Type := S -> completion A * S.

Definition ret {S A : Type} (a : A) : ST S A := fun s => (Return a, s).

Definition throw {S A : Type} (e : exn) : ST S A := fun s => (Throw e, s).

Definition bind {S A B : Type} (m : ST S A) (k : A -> ST S B) : ST S B :=
  fun s =>
    match m s with
    | (Return a, s') => k a s'
    | (Throw e, s') => (Throw e, s')
    end.

(** [try { m } catch (err) { handler err }]: what [m] did to the state
    before it threw stays done. *)
Definition try_catch {S A : Type} (m : ST S A) (handler : exn -> ST S A)
  : ST S A :=
  fun s =>
    match m s with
    | (Return a, s') => (Return a, s')
    | (Throw e, s') => handler e s'
    end.

Definition lift {S A : Type} (c : completion A) : ST S A := fun s => (c, s).

Declare Scope st_scope.
Delimit Scope st_scope with st.
Notation "x <- m ;; k" := (bind m (fun x => k))
  (at level 61, m at next level, right associativity) : st_scope.
Notation "m ;; k" := (bind m (fun _ => k))
  (at level 61, right associativity) : st_scope.
Local Open Scope st_scope.

Definition M (A : Type) : Type := ST World A.

(** The world after the effects [es]. *)
Definition log (es : list effect) (w : World) : World :=
  {| this := this w; server := server w; trace := (trace w ++ es)%list |}.

Definition emit (e : effect) : M unit := fun w => (Return tt, log [e] w).

Definition get_this : M GithubAdapter := fun w => (Return (this w), w).

Definition set_identity (i : Identity) : M unit :=
  fun w =>
    (Return tt,
     {| this := {| options := options (this w);
                   octokit := octokit (this w);
                   identity := Some i;
                   middleware := middleware (this w) |};
        server := server w;
        trace := trace w |}).

Definition constructed (tr : list effect) : list Octokit :=
  flat_map (fun e => match e with construct o => [o] | _ => [] end) tr.

Definition requests (tr : list effect) : list ApiCall :=
  flat_map (fun e => match e with request _ c => [c] | _ => [] end) tr.

(** [new Octokit({ auth, userAgent })] *)
Definition new_Octokit (token agent : string) : M Octokit :=
  fun w =>
    let o := {| instance := List.length (constructed (trace w));
                auth := token;
                userAgent := agent |} in
    (emit (construct o) ;; ret o) w.

(** A request is sent when the client method is called; the promise it
    returns settles as the server decides. *)
Definition call (o : Octokit) (c : ApiCall) : M Promise :=
  fun w =>
    let p := server w (List.length (requests (trace w))) o c in
    (emit (request o c) ;; ret p) w.

(** [await p] *)
Definition await (p : Promise) : M OctokitResponse :=
  match p with
  | Resolved r => ret r
  | Rejected e => throw e
  end.

(** ** The adapter ([github_adapter.ts]) *)

Definition getAPI : M Octokit :=
  a <- get_this ;;
  match octokit a with
  | Some o => ret o
  | None =>
      let token := githubToken (options a) in
      match token with
      | Some t =>
          if truthy token then new_Octokit t "Botkit"
          else throw (Error "Missing api token.")
      | None => throw (Error "Missing api token.")
      end
  end.

Definition getBotUserFromAPI : M Identity :=
  a <- get_this ;;
  match identity a with
  | Some i => ret i
  | None =>
      o <- getAPI ;;
      p <- call o users_getAuthenticated ;;
      user <- await p ;;
      match data_login (data user) with
      | Some l =>
          if truthy (Some l) then
            let i := {| identity_user_id := data_id (data user);
                        login := l |} in
            set_identity i ;; ret i
          else throw (Error "Not authenticated")
      | None => throw (Error "Not authenticated")
      end
  end.

Definition activityToGithub (a : Activity) : completion GithubMessage :=
  let message_text := if truthy (text a) then text a else None in
  match conversation a with
  | Some c =>
      match repo c with
      | Some r =>
          let repoParts := split "/" r in
          Return {| activityId := id a;
                    target := Some {| target_type := conversationType c;
                                      target_id := conversation_id c;
                                      owner := nth_error repoParts 0;
                                      target_repo := nth_error repoParts 1 |};
                    message_text := message_text |}
      | None => Throw (TypeError "Cannot read property 'split' of undefined")
      end
  | None =>
      Return {| activityId := id a; target := None;
                message_text := message_text |}
  end.

(** [result.status < 300]; a string and a promise have no [status]. *)
Definition status_below_300 (r : Result) : bool :=
  match r with
  | OfResponse resp => status resp <? 300
  | OfString _ | OfPromise _ => false
  end.

Definition string_in (s : option string) (l : list string) : bool :=
  match s with
  | Some x => existsb (String.eqb x) l
  | None => false
  end.

Definition target_of (m : GithubMessage) : M GithubTarget :=
  match target m with
  | Some t => ret t
  | None => throw (TypeError "Cannot read property 'type' of undefined")
  end.

(** One turn of the loop of [sendActivities]. *)
Definition sendActivity (a : Activity) (responses : list ResourceResponse)
  : M (list ResourceResponse) :=
  match type a with
  | Message =>
      message <- lift (activityToGithub a) ;;
      try_catch
        (o <- getAPI ;;
         t <- target_of message ;;
         result <-
           (if string_in (target_type t)
                 ["issue_comment"; "pull_request"; "issues"]
            then
              p <- call o (issues_createComment (owner t) (target_repo t)
                             (target_id t) (message_text message)) ;;
              r <- await p ;;
              ret (OfResponse r)
            else ret (OfString "Unsupported target type")) ;;
         if status_below_300 result then
           match result with
           | OfResponse r =>
               ret (responses
                      ++ [{| response_id := data_id (data r);
                             response_activityId := id a;
                             response_conversation := conversation a |}])%list
           | _ => throw (TypeError "Cannot read property 'id' of undefined")
           end
         else
           emit (console_error "Error sending activity to API:") ;;
           ret responses)
        (fun err =>
           emit (console_error "Error sending activity to API:") ;;
           ret responses)
  | _ => ret responses
  end.

Fixpoint sendActivities_from (activities : list Activity)
  (responses : list ResourceResponse) : M (list ResourceResponse) :=
  match activities with
  | [] => ret responses
  | a :: rest =>
      responses' <- sendActivity a responses ;;
      sendActivities_from rest responses'
  end.

Definition sendActivities (context : TurnContext)
  (activities : list Activity) : M (list ResourceResponse) :=
  sendActivities_from activities [].

Definition truthy_ident (i : option ident) : bool :=
  match i with
  | Some (Num n) => negb (n =? 0)
  | Some (Str s) => negb (s =? "")%string
  | None => false
  end.

Definition updateActivity (context : TurnContext) (a : Activity) : M unit :=
  match truthy_ident (id a), conversation a with
  | true, Some _ =>
      try_catch
        (message <- lift (activityToGithub a) ;;
         o <- getAPI ;;
         t <- target_of message ;;
         result <-
           (if string_in (target_type t) ["issue_comment"] then
              p <- call o (issues_updateComment (owner t) (target_repo t)
                             (activityId message) (message_text message)) ;;
              r <- await p ;;
              emit console_log ;;
              ret (OfResponse r)
            else ret (OfString "Unsupported target type")) ;;
         if negb (status_below_300 result) then
           emit (console_error "Error updating activity on Github:")
         else ret tt)
        (fun err => emit (console_error "Error updating activity on Github:"))
  | _, _ => throw (Error "Cannot update activity: activity is missing id")
  end.

Record ConversationReference : Type :=
  { reference_activityId : option ident;
    reference_conversation : option ConversationAccount }.

Definition deleteActivity (context : TurnContext)
  (reference : ConversationReference) : M unit :=
  match truthy_ident (reference_activityId reference),
        reference_conversation reference with
  | true, Some _ =>
      try_catch
        (o <- getAPI ;;
         message <- lift (activityToGithub (activity context)) ;;
         t <- target_of message ;;
         result <-
           (if string_in (target_type t) ["issue_comment"] then
              (* the promise is stored, not awaited *)
              p <- call o (issues_deleteComment (owner t) (target_repo t)
                             (activityId message)) ;;
              emit console_log ;;
              ret (OfPromise p)
            else ret (OfString "Unsupported target type")) ;;
         if negb (status_below_300 result) then
           emit (console_error "Error deleting activity:")
         else ret tt)
        (fun err =>
           emit (console_error "Error deleting activity") ;;
           throw err)
  | _, _ =>
      throw (Error "Cannot delete activity: reference is missing activityId")
  end.

Definition continueConversation (reference : ConversationReference)
  (logic : TurnContext -> M TurnContext) : M unit :=
  throw (Error "Not currently supported (continueConversation)").

(** The signature that GitHub sends for [body] under [secret]. *)
Definition signature (secret body : string) : string :=
  "sha1=" ++ Crypto.createHmac_sha1_hex secret body.

(** [rawBody] is the request body as a string, as Botkit's web server
    stores it. *)
Definition verifySignature (req : Request) : M bool :=
  a <- get_this ;;
  match webhookSecret (options a), rawBody req with
  | Some secret, Some body =>
      if truthy (Some secret) && truthy (Some body) then
        let messageHash := header req "X-Hub-Signature" in
        let hash := signature secret body in
        validSignature <-
          match messageHash with
          | Some h =>
              lift (Crypto.timingSafeEqual (Buffer_from h) (Buffer_from hash))
          | None =>
              throw (TypeError "The first argument must be of type string")
          end ;;
        if negb validSignature then
          emit (res_status (Some 401)) ;; ret false
        else ret true
      else ret true
  | _, _ => ret true
  end.

(** ** The middlewares

    A middleware changes the activity of the turn in place; what it wrote
    before it threw stays written. *)

Definition Turn : Type := (TurnContext * World)%type.

Definition in_world {A : Type} (m : M A) : ST Turn A :=
  fun '(c, w) => let '(r, w') := m w in (r, (c, w')).

Definition get_activity : ST Turn Activity :=
  fun '(c, w) => (Return (activity c), (c, w)).

Definition modify_activity (f : Activity -> Activity) : ST Turn unit :=
  fun '(c, w) =>
    (Return tt,
     ({| activity := f (activity c); turnState := turnState c |}, w)).

Definition set_botkitEventType (v : string) (a : Activity) : Activity :=
  {| type := type a; id := id a; timestamp := timestamp a;
     channelData :=
       option_map
         (fun p =>
            {| action := action p; number := number p;
               comment := comment p; issue := issue p;
               repository := repository p; sender := sender p;
               botkitEventType := Some v |})
         (channelData a);
     channelId := channelId a; from := from a;
     conversation := conversation a; recipient := recipient a;
     text := text a; label := label a |}.

Definition set_text (v : option string) (a : Activity) : Activity :=
  {| type := type a; id := id a; timestamp := timestamp a;
     channelData := channelData a; channelId := channelId a;
     from := from a; conversation := conversation a;
     recipient := recipient a; text := v; label := label a |}.

Definition set_type (v : ActivityTypes) (a : Activity) : Activity :=
  {| type := v; id := id a; timestamp := timestamp a;
     channelData := channelData a; channelId := channelId a;
     from := from a; conversation := conversation a;
     recipient := recipient a; text := text a; label := label a |}.

Definition set_conversation (v : ConversationAccount) (a : Activity)
  : Activity :=
  {| type := type a; id := id a; timestamp := timestamp a;
     channelData := channelData a; channelId := channelId a;
     from := from a; conversation := Some v;
     recipient := recipient a; text := text a; label := label a |}.

(** [context.activity.conversation.<field> = ...] *)
Definition assign_conversation
  (f : ConversationAccount -> ConversationAccount) : ST Turn unit :=
  a <- get_activity ;;
  match conversation a with
  | Some c => modify_activity (set_conversation (f c))
  | None => throw (TypeError "Cannot set property of undefined")
  end.

Definition new_RegExp (pattern flags : string) : ST Turn RegExp.t :=
  match RegExp.compile pattern flags with
  | Some re => ret re
  | None => throw (Unmodelled "regular expression outside the fragment")
  end.

(** [new RegExp('<src>', flags)] for a pattern written as a string
    literal. *)
Definition new_RegExp_literal (src flags : string) : ST Turn RegExp.t :=
  match string_literal src with
  | Some pattern => new_RegExp pattern flags
  | None => throw (Unmodelled "escape sequence outside the fragment")
  end.

Definition remove_all (patterns : list string) (s : string)
  : ST Turn string :=
  fold_left
    (fun acc pattern =>
       cur <- acc ;;
       re <- new_RegExp pattern "" ;;
       ret (RegExp.remove re cur))
    patterns (ret s).

Definition is_Some {A : Type} (o : option A) : bool :=
  match o with Some _ => true | None => false end.

Definition text_matches (re : RegExp.t) (t : option string) : bool :=
  match t with
  | Some s => negb (s =? "")%string && RegExp.test re s
  | None => false
  end.

(** [GithubMessageTypeMiddleware.onTurn], up to the call of [next]. *)
Definition MessageType_onTurn : ST Turn unit :=
  a <- get_activity ;;
  match type a with
  | Message =>
      if is_Some (channelData a) then
        bot <- in_world getBotUserFromAPI ;;
        let mentionSyntax := "@" ++ login bot in
        mention <- new_RegExp mentionSyntax "i" ;;
        direct_mention <- new_RegExp ("^" ++ mentionSyntax) "i" ;;
        slash_command <- new_RegExp_literal "^\/\w+" "i" ;;
        let has_login := truthy (Some (login bot)) in
        if has_login && text_matches direct_mention (text a) then
          modify_activity (set_botkitEventType "direct_mention") ;;
          stripped <-
            remove_all ["^\s+"; "^:\s+"; "^\s+"]
              (RegExp.remove direct_mention
                 (match text a with Some s => s | None => "" end)) ;;
          modify_activity (set_text (Some stripped))
        else if has_login && text_matches mention (text a) then
          modify_activity (set_botkitEventType "mention")
        else if text_matches slash_command (text a) then
          modify_activity (set_botkitEventType "slash_command") ;;
          modify_activity (set_type Event) ;;
          stripped <-
            remove_all ["^\/"]
              (match text a with Some s => s | None => "" end) ;;
          modify_activity (set_text (Some stripped))
        else ret tt
      else ret tt
  | _ => ret tt
  end.

Definition neq_string (o : option string) (s : string) : bool :=
  match o with
  | Some x => negb (x =? s)%string
  | None => true
  end.

(** [GithubEventTypeMiddleware.onTurn], up to the call of [next]. *)
Definition EventType_onTurn : ST Turn unit :=
  a <- get_activity ;;
  match type a, label a, channelData a with
  | Event, Some eventType, Some cd =>
      if truthy (Some eventType)
         && neq_string (botkitEventType cd) "slash_command" then
        (match action cd with
         | Some act =>
             if truthy (Some act) then
               modify_activity
                 (set_botkitEventType (eventType ++ "_" ++ act))
             else modify_activity (set_botkitEventType eventType)
         | None => modify_activity (set_botkitEventType eventType)
         end) ;;
        if (eventType =? "pull_request")%string then
          assign_conversation
            (fun c => {| isGroup := Some true;
                         conversationType := conversationType c;
                         conversation_id := conversation_id c;
                         repo := repo c |}) ;;
          assign_conversation
            (fun c => {| isGroup := isGroup c;
                         conversationType := Some eventType;
                         conversation_id := conversation_id c;
                         repo := repo c |}) ;;
          assign_conversation
            (fun c => {| isGroup := isGroup c;
                         conversationType := conversationType c;
                         conversation_id := option_map Num (number cd);
                         repo := repo c |}) ;;
          match repository cd with
          | Some full_name =>
              assign_conversation
                (fun c => {| isGroup := isGroup c;
                             conversationType := conversationType c;
                             conversation_id := conversation_id c;
                             repo := Some full_name |})
          | None =>
              throw (TypeError "Cannot read property 'full_name' of undefined")
          end
        else if (eventType =? "issues")%string then
          assign_conversation
            (fun c => {| isGroup := Some true;
                         conversationType := conversationType c;
                         conversation_id := conversation_id c;
                         repo := repo c |}) ;;
          assign_conversation
            (fun c => {| isGroup := isGroup c;
                         conversationType := Some eventType;
                         conversation_id := conversation_id c;
                         repo := repo c |}) ;;
          match issue cd with
          | Some n =>
              assign_conversation
                (fun c => {| isGroup := isGroup c;
                             conversationType := conversationType c;
                             conversation_id := Some (Num n);
                             repo := repo c |})
          | None =>
              throw (TypeError "Cannot read property 'number' of undefined")
          end ;;
          match repository cd with
          | Some full_name =>
              assign_conversation
                (fun c => {| isGroup := isGroup c;
                             conversationType := conversationType c;
                             conversation_id := conversation_id c;
                             repo := Some full_name |})
          | None =>
              throw (TypeError "Cannot read property 'full_name' of undefined")
          end
        else ret tt
      else ret tt
  | _, _, _ => ret tt
  end.

Definition onTurn (m : Middleware) : ST Turn unit :=
  match m with
  | GithubMessageTypeMiddleware => MessageType_onTurn
  | GithubEventTypeMiddleware => EventType_onTurn
  end.

(** [BotAdapter.runMiddleware]: the middlewares bound to the adapter run
    in order, each on the activity as the one before left it, and the bot
    logic runs last. *)
Fixpoint run_middlewares (ms : list Middleware)
  (logic : TurnContext -> M TurnContext) (context : TurnContext)
  : M TurnContext :=
  match ms with
  | [] => emit (run_logic (activity context)) ;; logic context
  | m :: rest =>
      fun w =>
        match onTurn m (context, w) with
        | (Return _, (context', w')) => run_middlewares rest logic context' w'
        | (Throw e, (_, w')) => (Throw e, w')
        end
  end.

Definition runMiddleware (context : TurnContext)
  (logic : TurnContext -> M TurnContext) : M TurnContext :=
  a <- get_this ;;
  run_middlewares (middleware a) logic context.

Definition role_of (u : GithubUser) : RoleTypes :=
  if (user_type u =? "User")%string then User else Bot.

Definition undefined_property {A : Type} (name : string) : M A :=
  throw (TypeError ("Cannot read property '" ++ name ++ "' of undefined")).

(** The activity that [processActivity] builds for an [issue_comment]
    event; [None] when the comment is the bot's own. *)
Definition issue_comment_activity (eventType : string)
  (event : option Payload) (user : Identity) : M (option Activity) :=
  match event with
  | None => undefined_property "comment"
  | Some ev =>
      match comment ev with
      | None => undefined_property "user"
      | Some c =>
          if identity_user_id user =? user_id (comment_user c) then ret None
          else
            match issue ev, repository ev with
            | None, _ => undefined_property "number"
            | Some issue_number, None => undefined_property "full_name"
            | Some issue_number, Some full_name =>
                ret (Some
                  {| type := Message;
                     id := Some (Num (comment_id c));
                     timestamp := Some (DateOf (updated_at c));
                     channelData := event;
                     channelId := Some "github";
                     from :=
                       Some {| account_id := Some (user_login (comment_user c));
                               role := Some (role_of (comment_user c)) |};
                     conversation :=
                       Some {| isGroup := Some true;
                               conversationType := Some eventType;
                               conversation_id := Some (Num issue_number);
                               repo := Some full_name |};
                     recipient :=
                       Some {| account_id := Some (login user);
                               role := Some Bot |};
                     text := Some (comment_body c);
                     label := Some eventType |})
            end
      end
  end.

(** The activity that [processActivity] builds for every other event. *)
Definition event_activity (eventType : option string) (req : Request)
  : M Activity :=
  match req_body req with
  | None => undefined_property "repository"
  | Some ev =>
      match repository ev, sender ev with
      | None, _ => undefined_property "full_name"
      | Some _, None => undefined_property "login"
      | Some full_name, Some s =>
          ret {| type := Event;
                 id := Some (Str full_name);
                 timestamp := Some DateNow;
                 channelData := req_body req;
                 channelId := Some "github";
                 from := Some {| account_id := Some (user_login s);
                                 role := Some (role_of s) |};
                 conversation :=
                   Some {| isGroup := None;
                           conversationType := None;
                           conversation_id :=
                             option_map Str (header req "X-Github-Delivery");
                           repo := None |};
                 recipient := Some {| account_id := None; role := None |};
                 text := None;
                 label := eventType |}
      end
  end.

(** [new TurnContext(this, activity)], [httpStatus] set to 200, then the
    middlewares and the bot logic. *)
Definition run_turn (a : Activity) (logic : TurnContext -> M TurnContext)
  : M TurnContext :=
  runMiddleware
    {| activity := a;
       turnState := {| httpStatus := Some 200; httpBody := None |} |}
    logic.

Definition send_response (context : TurnContext) : M unit :=
  emit (res_status (httpStatus (turnState context))) ;;
  match httpBody (turnState context) with
  | Some b => if truthy (Some b) then emit (res_send b) else emit res_end
  | None => emit res_end
  end.

(** What [processActivity] does once the signature check has passed. *)
Definition receive (req : Request) (logic : TurnContext -> M TurnContext)
  : M unit :=
  let event := req_body req in
  let eventType := header req "X-Github-Event" in
  user <- getBotUserFromAPI ;;
  if string_in eventType ["issue_comment"] then
    built <- issue_comment_activity "issue_comment" event user ;;
    match built with
    | None => ret tt
    | Some a =>
        context <- run_turn a logic ;;
        send_response context
    end
  else
    a <- event_activity eventType req ;;
    context <- run_turn a logic ;;
    send_response context.

Definition processActivity (req : Request)
  (logic : TurnContext -> M TurnContext) : M unit :=
  verified <- verifySignature req ;;
  if negb verified then ret tt else receive req logic.

(** The activities that the bot logic was run on. *)
Definition dispatched (tr : list effect) : list Activity :=
  flat_map (fun e => match e with run_logic a => [a] | _ => [] end) tr.

Definition console_errors (tr : list effect) : list string :=
  flat_map (fun e => match e with console_error m => [m] | _ => [] end) tr.

(** *** What a batch of replies is expected to return

    The request that a message-kind activity leads to, if any. *)
Definition outbound (a : Activity) : option ApiCall :=
  match activityToGithub a with
  | Return m =>
      match target m with
      | Some t =>
          if string_in (target_type t)
               ["issue_comment"; "pull_request"; "issues"]
          then Some (issues_createComment (owner t) (target_repo t)
                       (target_id t) (message_text m))
          else None
      | None => None
      end
  | Throw _ => None
  end.

Definition mappable (a : Activity) : bool :=
  match activityToGithub a with
  | Return _ => true
  | Throw _ => false
  end.

(** A message-kind activity that [activityToGithub] maps without
    raising. *)
Definition sendable (a : Activity) : Prop :=
  type a = Message /\ mappable a = true.

Definition record_for (a : Activity) (d : ResponseData) : ResourceResponse :=
  {| response_id := data_id d;
     response_activityId := id a;
     response_conversation := conversation a |}.

(** The client that [getAPI] hands out when [k] clients have been made:
    the cached one, or a new one for the configured token. *)
Definition client_for (adapter : GithubAdapter) (k : nat) : option Octokit :=
  match octokit adapter with
  | Some o => Some o
  | None =>
      match githubToken (options adapter) with
      | Some t =>
          if truthy (Some t)
          then Some {| instance := k; auth := t; userAgent := "Botkit" |}
          else None
      | None => None
      end
  end.

Definition clients_after (adapter : GithubAdapter) (k : nat) : nat :=
  match octokit adapter, client_for adapter k with
  | None, Some _ => S k
  | _, _ => k
  end.

(** The records of the accepted sends, by the words of the
    specification: a call that succeeds with a status below 300 yields a
    record, a failure yields none, and the batch goes on. [n] counts the
    requests and [k] the clients made so far. *)
Fixpoint expected_responses (s : Server) (adapter : GithubAdapter)
  (n k : nat) (activities : list Activity) : list ResourceResponse :=
  match activities with
  | [] => []
  | a :: rest =>
      match client_for adapter k, outbound a with
      | Some o, Some c =>
          match s n o c with
          | Resolved r =>
              if status r <? 300 then [record_for a (data r)] else []
          | Rejected _ => []
          end ++ expected_responses s adapter (S n)
                   (clients_after adapter k) rest
      | _, _ =>
          expected_responses s adapter n (clients_after adapter k) rest
      end
  end%list.

(** The requests that a batch leads to. *)
Definition requests_for (adapter : GithubAdapter)
  (activities : list Activity) : list ApiCall :=
  match client_for adapter O with
  | Some _ =>
      flat_map
        (fun a => match outbound a with Some c => [c] | None => [] end)
        activities
  | None => []
  end.

(** A send fails when the request is rejected or answered with a status
    of 300 or more. *)
Definition failed (p : Promise) : bool :=
  match p with
  | Resolved r => negb (status r <? 300)
  | Rejected _ => true
  end.

(** The tag that the middlewares left on an activity. *)
Definition tag (a : Activity) : option string :=
  match channelData a with
  | Some p => botkitEventType p
  | None => None
  end.

(** ** Concrete adapters, servers and requests *)

Module Sample.

Definition headers (l : list (string * string)) (name : string)
  : option string :=
  match find (fun kv => (fst kv =? name)%string) l with
  | Some kv => Some (snd kv)
  | None => None
  end.

Definition adapter (secret token : option string) (i : option Identity)
  : GithubAdapter :=
  {| options := {| webhookSecret := secret; githubToken := token |};
     octokit := None;
     identity := i;
     middleware :=
       [GithubMessageTypeMiddleware; GithubEventTypeMiddleware] |}.

Definition mybot : Identity := {| identity_user_id := 7; login := "mybot" |}.

Definition created (n : nat) : Promise :=
  Resolved {| status := 201;
              data := {| data_id := 1000 + Z.of_nat n;
                         data_login := None |} |}.

(** A server that knows the bot and accepts every comment. *)
Definition accepting : Server :=
  fun n o c =>
    match c with
    | users_getAuthenticated =>
        Resolved {| status := 200;
                    data := {| data_id := 7;
                               data_login := Some "mybot" |} |}
    | _ => created n
    end.

(** A server that rejects every request. *)
Definition failing : Server := fun n o c => Rejected (HttpError 404).

(** A server that rejects its first request and accepts the later ones. *)
Definition flaky : Server :=
  fun n o c =>
    match n with
    | O => Rejected (HttpError 500)
    | S _ => created n
    end.

Definition world (a : GithubAdapter) (s : Server) : World :=
  {| this := a; server := s; trace := [] |}.

Definition alice : GithubUser :=
  {| user_id := 5; user_login := "alice"; user_type := "User" |}.

Definition the_bot : GithubUser :=
  {| user_id := 7; user_login := "mybot"; user_type := "User" |}.

Definition comment_event (author : GithubUser) (body : string) : Payload :=
  {| action := Some "created";
     number := None;
     comment := Some {| comment_id := 99;
                        comment_body := body;
                        updated_at := "2019-05-15T15:20:33Z";
                        comment_user := author |};
     issue := Some 42;
     repository := Some "o/r";
     sender := Some author;
     botkitEventType := None |}.

Definition pull_request_event (act : option string) : Payload :=
  {| action := act;
     number := Some 3;
     comment := None;
     issue := None;
     repository := Some "o/r";
     sender := Some alice;
     botkitEventType := None |}.

Definition issue_comment_request (hs : list (string * string))
  (raw : option string) (ev : Payload) : Request :=
  {| header := headers (("X-Github-Event", "issue_comment") :: hs);
     rawBody := raw;
     req_body := Some ev |}.

Definition thread : ConversationAccount :=
  {| isGroup := Some true;
     conversationType := Some "issue_comment";
     conversation_id := Some (Num 42);
     repo := Some "o/r" |}.

Definition message (n : Z) (body : string) : Activity :=
  {| type := Message;
     id := Some (Num n);
     timestamp := None;
     channelData := Some (comment_event alice body);
     channelId := Some "github";
     from := None;
     conversation := Some thread;
     recipient := None;
     text := Some body;
     label := Some "issue_comment" |}.

Definition event (name : string) (ev : Payload) : Activity :=
  {| type := Event;
     id := Some (Str "o/r");
     timestamp := Some DateNow;
     channelData := Some ev;
     channelId := Some "github";
     from := None;
     conversation := Some {| isGroup := None; conversationType := None;
                             conversation_id := Some (Str "delivery-1");
                             repo := None |};
     recipient := None;
     text := None;
     label := Some name |}.

(** A reply with the text [body] into the conversation of [a]. *)
Definition reply (a : Activity) (body : string) : Activity :=
  {| type := Message;
     id := None;
     timestamp := None;
     channelData := None;
     channelId := channelId a;
     from := recipient a;
     conversation := conversation a;
     recipient := from a;
     text := Some body;
     label := None |}.

Definition turn (a : Activity) : TurnContext :=
  {| activity := a;
     turnState := {| httpStatus := Some 200; httpBody := None |} |}.

Definition quiet (c : TurnContext) : M TurnContext := ret c.

End Sample.

(** ** Further parts of the adapter *)

(** The [spawn] middleware that the constructor binds: the value it
    stores in [bot.api] and the arguments of its calls of [next], in
    order ([next] returns nothing). *)
Definition spawn : M (option Octokit * list (option exn)) :=
  try_catch
    (o <- getAPI ;; ret (Some o, [None]))
    (fun err =>
       ret (None,
            [Some (Error "Could not spawn a Github API instance"); None])).

Definition is_message (a : Activity) : bool :=
  match type a with
  | Message => true
  | _ => false
  end.

(** [w'] is [w] some effects later: the options, the client field, the
    bound middlewares and the server are the same, an identity that was
    cached is still cached, and the trace has only grown. *)
Definition later (w w' : World) : Prop :=
  options (this w') = options (this w)
  /\ octokit (this w') = octokit (this w)
  /\ middleware (this w') = middleware (this w)
  /\ server w' = server w
  /\ (forall i, identity (this w) = Some i -> identity (this w') = Some i)
  /\ exists es, trace w' = (trace w ++ es)%list.

Definition keeps {A : Type} (m : M A) : Prop :=
  forall w r w', m w = (r, w') -> later w w'.

(** The character [c] does not occur in [s]. *)
Definition has_no (c : ascii) (s : string) : bool :=
  forallb (fun d => negb (Ascii.eqb d c)) (list_ascii_of_string s).

(** The effects of an [issues.updateComment] whose promise is [p]. *)
Definition update_effects (o : Octokit) (c : ApiCall) (p : Promise)
  : list effect :=
  request o c
    :: match p with
       | Resolved r =>
           console_log
             :: (if status r <? 300 then []
                 else [console_error "Error updating activity on Github:"])
       | Rejected _ => [console_error "Error updating activity on Github:"]
       end.

(** Every run of [m] takes a state to one related to it by [R]. *)
Definition respects {S A : Type} (R : S -> S -> Prop) (m : ST S A) : Prop :=
  forall s r s', m s = (r, s') -> R s s'.

Definition without_tag (p : Payload) : Payload :=
  {| action := action p; number := number p; comment := comment p;
     issue := issue p; repository := repository p; sender := sender p;
     botkitEventType := None |}.

(** [a'] is [a] up to the tag and the conversation. *)
Definition retagged (a a' : Activity) : Prop :=
  type a' = type a /\ id a' = id a /\ timestamp a' = timestamp a
  /\ channelId a' = channelId a /\ from a' = from a
  /\ recipient a' = recipient a /\ text a' = text a /\ label a' = label a
  /\ option_map without_tag (channelData a')
     = option_map without_tag (channelData a).

(** The turn went on with the same world and the same turn state, and
    with the same activity up to the tag and the conversation. *)
Definition only_tags (s s' : Turn) : Prop :=
  snd s' = snd s /\ turnState (fst s') = turnState (fst s)
  /\ retagged (activity (fst s)) (activity (fst s')).

(** *** What the patterns of the classifier mean *)

(** A pattern text without any character that is special in a regular
    expression. *)
Definition plain (p : string) : bool :=
  forallb
    (fun c => negb (RegExp.meta c || Ascii.eqb c "\" || Ascii.eqb c "+"))
    (list_ascii_of_string p).

Definition literal_pieces (p : string) : list RegExp.piece :=
  map (fun c => {| RegExp.what := RegExp.Lit c; RegExp.plus := false |})
    (list_ascii_of_string p).

(** [s] starts with [p], letter case aside; the result is the rest. *)
Fixpoint starts_with (p s : string) : option string :=
  match p with
  | EmptyString => Some s
  | String c p' =>
      match s with
      | EmptyString => None
      | String d s' =>
          if RegExp.canonicalize c =? RegExp.canonicalize d
          then starts_with p' s'
          else None
      end
  end.

(** [p] occurs in [s], letter case aside. *)
Fixpoint contains (p s : string) : bool :=
  match starts_with p s with
  | Some _ => true
  | None =>
      match s with
      | EmptyString => false
      | String _ s' => contains p s'
      end
  end.

(** [s] without its leading white space. *)
Fixpoint ltrim (s : string) : string :=
  match s with
  | EmptyString => EmptyString
  | String c s' => if RegExp.is_space c then ltrim s' else s
  end.

(** [s] without a leading colon and the white space after it, when both
    are there. *)
Definition strip_colon (s : string) : string :=
  match s with
  | String c (String d t) =>
      if Ascii.eqb c ":" && RegExp.is_space d then ltrim t else s
  | _ => s
  end.

(** ** More concrete cases *)

Module Cases.

Definition signed (secret body : string) (h : string) (ev : Payload)
  : Request :=
  Sample.issue_comment_request [("X-Hub-Signature", h)] (Some body) ev.

(** A server that answers the lookup of the bot with [l] for a login. *)
Definition anonymous (l : option string) : Server :=
  fun n o c =>
    Resolved {| status := 200;
                data := {| data_id := 7; data_login := l |} |}.

Definition event_request (name delivery : string) (ev : Payload) : Request :=
  {| header := Sample.headers [("X-Github-Event", name);
                               ("X-Github-Delivery", delivery)];
     rawBody := None;
     req_body := Some ev |}.

Definition issues_event (act : option string) : Payload :=
  {| action := act;
     number := None;
     comment := None;
     issue := Some 42;
     repository := Some "o/r";
     sender := Some Sample.alice;
     botkitEventType := None |}.

Definition typing : Activity :=
  {| type := OtherActivity "typing";
     id := None;
     timestamp := None;
     channelData := None;
     channelId := Some "github";
     from := None;
     conversation := Some Sample.thread;
     recipient := None;
     text := None;
     label := None |}.

End Cases.

(** * Properties *)

Local Open Scope list_scope.

(** ** The monad *)

Lemma bind_Return {S A B : Type} (m : ST S A) (k : A -> ST S B) s a s' :
  m s = (Return a, s') -> bind m k s = k a s'.
Proof. intros H. unfold bind. rewrite H. reflexivity. Qed.

Lemma bind_Throw {S A B : Type} (m : ST S A) (k : A -> ST S B) s e s' :
  m s = (Throw e, s') -> bind m k s = (Throw e, s').
Proof. intros H. unfold bind. rewrite H. reflexivity. Qed.

Lemma try_catch_Return {S A : Type} (m : ST S A) h s a s' :
  m s = (Return a, s') -> try_catch m h s = (Return a, s').
Proof. intros H. unfold try_catch. rewrite H. reflexivity. Qed.

Lemma try_catch_Throw {S A : Type} (m : ST S A) h s e s' :
  m s = (Throw e, s') -> try_catch m h s = h e s'.
Proof. intros H. unfold try_catch. rewrite H. reflexivity. Qed.

Lemma truthy_Some s : truthy (Some s) = true <-> s <> "".
Proof.
  simpl. destruct (String.eqb_spec s ""); simpl; split; congruence.
Qed.

(** ** The test vectors of the digest *)

Example sha1_abc :
  Crypto.hex (Crypto.sha1 (Buffer_from "abc"))
  = "a9993e364706816aba3e25717850c26c9cd0d89d".
Proof. vm_compute. reflexivity. Qed.

Example sha1_empty :
  Crypto.hex (Crypto.sha1 [])
  = "da39a3ee5e6b4b0d3255bfef95601890afd80709".
Proof. vm_compute. reflexivity. Qed.

Example hmac_sha1_fox :
  Crypto.createHmac_sha1_hex "key"
    "The quick brown fox jumps over the lazy dog"
  = "de7c9b85b8b78aa6bc8a7a36f70a90701c9db4d9".
Proof. vm_compute. reflexivity. Qed.

(** ** Signature verification *)

Lemma timingSafeEqual_refl b : Crypto.timingSafeEqual b b = Return true.
Proof.
  unfold Crypto.timingSafeEqual, Crypto.bytes_eqb.
  rewrite Nat.eqb_refl. destruct (list_eq_dec Z.eq_dec b b); congruence.
Qed.

Lemma timingSafeEqual_neq a b :
  List.length a = List.length b -> a <> b ->
  Crypto.timingSafeEqual a b = Return false.
Proof.
  intros Hl Hn. unfold Crypto.timingSafeEqual, Crypto.bytes_eqb.
  rewrite Hl, Nat.eqb_refl. destruct (list_eq_dec Z.eq_dec a b); congruence.
Qed.

Lemma timingSafeEqual_length a b :
  List.length a <> List.length b ->
  Crypto.timingSafeEqual a b
  = Throw (RangeError "Input buffers must have the same byte length").
Proof.
  intros Hl. unfold Crypto.timingSafeEqual.
  apply Nat.eqb_neq in Hl. rewrite Hl. reflexivity.
Qed.

Ltac each_char c :=
  destruct c as [[] [] [] [] [] [] [] []].

Lemma code_inj c d : code c = code d -> c = d.
Proof.
  unfold code. intros H. apply N2Z.inj in H.
  rewrite <- (ascii_N_embedding c), <- (ascii_N_embedding d). congruence.
Qed.

(** The two bytes of a code unit above U+007F give the code unit back. *)
Lemma two_bytes_decode c :
  128 <= code c ->
  (Z.lor 192 (Z.shiftr (code c) 6) - 192) * 64
  + (Z.lor 128 (Z.land (code c) 63) - 128) = code c
  /\ 192 <= Z.lor 192 (Z.shiftr (code c) 6).
Proof.
  each_char c; vm_compute; intuition congruence.
Qed.

Lemma cons_eq {A : Type} (a b : A) l l' : a :: l = b :: l' -> a = b /\ l = l'.
Proof. intros H. split; congruence. Qed.

Lemma Buffer_from_inj s1 : forall s2, Buffer_from s1 = Buffer_from s2 -> s1 = s2.
Proof.
  induction s1 as [|c s1 IH]; intros [|d s2]; cbn [Buffer_from];
    try reflexivity.
  - destruct (code d <? 128); discriminate.
  - destruct (code c <? 128); discriminate.
  - destruct (Z.ltb_spec (code c) 128) as [Hc|Hc];
      destruct (Z.ltb_spec (code d) 128) as [Hd|Hd]; intros H;
      apply cons_eq in H; destruct H as [H1 H2].
    + f_equal; [now apply code_inj | now apply IH].
    + destruct (two_bytes_decode d Hd) as [_ Hge]. lia.
    + destruct (two_bytes_decode c Hc) as [_ Hge]. lia.
    + apply cons_eq in H2. destruct H2 as [H2 H3].
      destruct (two_bytes_decode c Hc) as [Ec _].
      destruct (two_bytes_decode d Hd) as [Ed _].
      f_equal; [apply code_inj; lia | now apply IH].
Qed.

Lemma byte_range x : 0 <= Z.land x 255 < 256.
Proof.
  change 255 with (Z.ones 8). rewrite Z.land_ones by lia.
  apply Z.mod_pos_bound. reflexivity.
Qed.

Lemma hex_digit_ascii n : 0 <= n < 16 -> code (Crypto.hex_digit n) < 128.
Proof.
  intros H.
  assert (E : exists k, (k < 16)%nat /\ n = Z.of_nat k).
  { exists (Z.to_nat n). lia. }
  destruct E as [k [Hk ->]].
  do 16 (destruct k as [|k]; [vm_compute; reflexivity|]). lia.
Qed.

Lemma Buffer_from_hex bs :
  Forall (fun b => 0 <= b < 256) bs ->
  List.length (Buffer_from (Crypto.hex bs)) = (2 * List.length bs)%nat.
Proof.
  induction 1 as [|b bs Hb _ IH]; [reflexivity|].
  cbn [Crypto.hex Buffer_from List.length].
  assert (H1 : code (Crypto.hex_digit (Z.shiftr b 4)) < 128).
  { apply hex_digit_ascii. rewrite Z.shiftr_div_pow2 by lia.
    change (2 ^ 4) with 16. split.
    - apply Z.div_pos; lia.
    - apply Z.div_lt_upper_bound; lia. }
  assert (H2 : code (Crypto.hex_digit (Z.land b 15)) < 128).
  { apply hex_digit_ascii. change 15 with (Z.ones 4).
    rewrite Z.land_ones by lia. apply Z.mod_pos_bound. reflexivity. }
  apply Z.ltb_lt in H1, H2. rewrite H1, H2.
  cbn [List.length]. rewrite IH. lia.
Qed.

Lemma sha1_bytes msg :
  Forall (fun b => 0 <= b < 256) (Crypto.sha1 msg)
  /\ List.length (Crypto.sha1 msg) = 20%nat.
Proof.
  unfold Crypto.sha1. destruct (Crypto.sha1_state msg) as [[[[a b] c] d] e].
  split; [|reflexivity].
  cbn [Crypto.state_bytes Crypto.be_bytes app].
  repeat (apply Forall_cons; [apply byte_range|]). apply Forall_nil.
Qed.

Lemma signature_length secret body :
  List.length (Buffer_from (signature secret body)) = 45%nat.
Proof.
  unfold signature, Crypto.createHmac_sha1_hex, Crypto.hmac_sha1.
  cbn [append Buffer_from].
  change (code "s" <? 128) with true. change (code "h" <? 128) with true.
  change (code "a" <? 128) with true. change (code "1" <? 128) with true.
  change (code "=" <? 128) with true. cbn [List.length].
  match goal with |- context [Crypto.sha1 ?m] =>
    destruct (sha1_bytes m) as [Hr Hl] end.
  rewrite Buffer_from_hex by exact Hr. rewrite Hl. reflexivity.
Qed.

Section VerifySignature.

Variables (w : World) (req : Request) (secret body : string).
Hypothesis configured : webhookSecret (options (this w)) = Some secret.
Hypothesis has_secret : secret <> "".
Hypothesis has_body : rawBody req = Some body.
Hypothesis nonempty_body : body <> "".

Lemma verifySignature_compare :
  verifySignature req w =
  match header req "X-Hub-Signature" with
  | Some h =>
      match Crypto.timingSafeEqual (Buffer_from h)
              (Buffer_from (signature secret body)) with
      | Return true => (Return true, w)
      | Return false => (emit (res_status (Some 401)) ;; ret false) w
      | Throw e => (Throw e, w)
      end
  | None => (Throw (TypeError "The first argument must be of type string"), w)
  end.
Proof.
  unfold verifySignature, bind, get_this. rewrite configured, has_body.
  apply truthy_Some in has_secret, nonempty_body.
  rewrite has_secret, nonempty_body. cbn [andb].
  destruct (header req "X-Hub-Signature") as [h|]; [|reflexivity].
  unfold lift.
  destruct (Crypto.timingSafeEqual _ _) as [[]|]; reflexivity.
Qed.

Lemma verifySignature_accepts :
  header req "X-Hub-Signature" = Some (signature secret body) ->
  verifySignature req w = (Return true, w).
Proof.
  intros H. rewrite verifySignature_compare, H, timingSafeEqual_refl.
  reflexivity.
Qed.

Lemma verifySignature_rejects h :
  header req "X-Hub-Signature" = Some h ->
  h <> signature secret body ->
  List.length (Buffer_from h) = 45%nat ->
  verifySignature req w
  = (Return false,
     log [res_status (Some 401)] w).
Proof.
  intros H Hn Hl. rewrite verifySignature_compare, H.
  rewrite timingSafeEqual_neq; [reflexivity | |].
  - now rewrite signature_length.
  - intros E. apply Hn. now apply Buffer_from_inj.
Qed.

Lemma verifySignature_raises h :
  header req "X-Hub-Signature" = Some h ->
  List.length (Buffer_from h) <> 45%nat ->
  verifySignature req w
  = (Throw (RangeError "Input buffers must have the same byte length"), w).
Proof.
  intros H Hl. rewrite verifySignature_compare, H.
  rewrite timingSafeEqual_length; [reflexivity|].
  now rewrite signature_length.
Qed.

End VerifySignature.

(** C9. When no webhook secret is configured ([webhookSecret] is absent
    or empty), [verifySignature] returns [true] for every request,
    whatever its body and its headers, and touches nothing. *)
Theorem C9_no_secret_accepts_everything (w : World) (req : Request) :
  truthy (webhookSecret (options (this w))) = false ->
  verifySignature req w = (Return true, w).
Proof.
  intros H. unfold verifySignature, bind, get_this.
  destruct (webhookSecret (options (this w))) as [secret|]; [|reflexivity].
  destruct (rawBody req) as [body|]; [|reflexivity].
  rewrite H. reflexivity.
Qed.

(** A forged signature passes on an adapter without a secret. *)
Lemma C9_witness :
  verifySignature
    (Sample.issue_comment_request [("X-Hub-Signature", "sha1=forged")]
       (Some "{}") (Sample.comment_event Sample.alice "hello"))
    (Sample.world (Sample.adapter None (Some "tok") None) Sample.accepting)
  = (Return true,
     Sample.world (Sample.adapter None (Some "tok") None) Sample.accepting).
Proof. apply C9_no_secret_accepts_everything. reflexivity. Defined.

(** C10. Whatever secret is configured, a request whose [rawBody] is
    absent or empty passes [verifySignature] with no comparison made
    (the header is not read, the response is not touched), and
    [processActivity] goes on to receive it as if it were authenticated. *)
Theorem C10_empty_body_is_not_verified (w : World) (req : Request)
  (logic : TurnContext -> M TurnContext) :
  truthy (rawBody req) = false ->
  verifySignature req w = (Return true, w)
  /\ processActivity req logic w = receive req logic w.
Proof.
  intros H.
  assert (E : verifySignature req w = (Return true, w)).
  { unfold verifySignature, bind, get_this.
    destruct (webhookSecret (options (this w))) as [secret|]; [|reflexivity].
    destruct (rawBody req) as [body|]; [|reflexivity].
    rewrite H, andb_false_r. reflexivity. }
  split; [exact E|].
  unfold processActivity. rewrite (bind_Return _ _ _ _ _ E). reflexivity.
Qed.

(** A forged signature passes on an adapter with a secret when the raw
    body is empty. *)
Lemma C10_witness :
  let w := Sample.world (Sample.adapter (Some "s3cret") (Some "tok") None)
             Sample.accepting in
  let req := Sample.issue_comment_request [("X-Hub-Signature", "sha1=forged")]
               (Some "") (Sample.comment_event Sample.alice "hello") in
  verifySignature req w = (Return true, w)
  /\ processActivity req Sample.quiet w = receive req Sample.quiet w.
Proof.
  intros w req. apply C10_empty_body_is_not_verified. reflexivity.
Defined.

(** C1. With the secret "s3cret" configured and the raw body "{}", the
    signature header "sha1=00", shorter than the computed signature,
    makes [verifySignature] raise a [RangeError] where [false] is the
    documented result, and [processActivity] raises with it. The general
    cases are [verifySignature_accepts], [verifySignature_rejects] and
    [verifySignature_raises]. *)
Theorem C1_short_signature_raises :
  let w := Sample.world (Sample.adapter (Some "s3cret") (Some "tok") None)
             Sample.accepting in
  let req := Sample.issue_comment_request [("X-Hub-Signature", "sha1=00")]
               (Some "{}") (Sample.comment_event Sample.alice "hello") in
  verifySignature req w
  = (Throw (RangeError "Input buffers must have the same byte length"), w)
  /\ processActivity req Sample.quiet w
     = (Throw (RangeError "Input buffers must have the same byte length"), w).
Proof. vm_compute. split; reflexivity. Qed.

(** ** The API client *)

Lemma getAPI_missing_token w :
  octokit (this w) = None ->
  truthy (githubToken (options (this w))) = false ->
  getAPI w = (Throw (Error "Missing api token."), w).
Proof.
  intros Ho Ht. unfold getAPI, bind, get_this. rewrite Ho.
  destruct (githubToken (options (this w))); [rewrite Ht|]; reflexivity.
Qed.

Lemma getAPI_cached w o :
  octokit (this w) = Some o -> getAPI w = (Return o, w).
Proof. intros Ho. unfold getAPI, bind, get_this. now rewrite Ho. Qed.

Lemma getAPI_constructs w t :
  octokit (this w) = None ->
  githubToken (options (this w)) = Some t -> t <> "" ->
  let o := {| instance := List.length (constructed (trace w));
              auth := t; userAgent := "Botkit" |} in
  getAPI w
  = (Return o,
     log [construct o] w).
Proof.
  intros Ho Ht Hne. unfold getAPI, bind, get_this. rewrite Ho, Ht.
  apply truthy_Some in Hne. rewrite Hne. reflexivity.
Qed.

Lemma getBotUserFromAPI_cached w user :
  identity (this w) = Some user -> getBotUserFromAPI w = (Return user, w).
Proof.
  intros H. unfold getBotUserFromAPI, bind, get_this. now rewrite H.
Qed.

Lemma constructed_app tr1 tr2 :
  constructed (tr1 ++ tr2) = constructed tr1 ++ constructed tr2.
Proof. apply flat_map_app. Qed.

(** C8. [getAPI] never stores the client it constructs: with a token
    configured, two calls in a row construct two clients that differ, and
    the [octokit] field is as empty after them as before. Without a token
    [getAPI] raises "Missing api token." ([getAPI_missing_token]). *)
Theorem C8_getAPI_constructs_a_client_on_every_call (w : World) (t : string) :
  octokit (this w) = None ->
  githubToken (options (this w)) = Some t -> t <> "" ->
  exists o1 o2 w1 w2,
    getAPI w = (Return o1, w1) /\ getAPI w1 = (Return o2, w2)
    /\ instance o2 = S (instance o1)
    /\ constructed (trace w2) = constructed (trace w) ++ [o1; o2]
    /\ octokit (this w2) = None.
Proof.
  intros Ho Ht Hne.
  pose proof (getAPI_constructs w t Ho Ht Hne) as E1. cbv zeta in E1.
  match type of E1 with _ = (Return ?o, ?w1) =>
    exists o; eexists; exists w1; eexists;
    split; [exact E1|];
    pose proof (getAPI_constructs w1 t Ho Ht Hne) as E2; cbv zeta in E2;
    split; [exact E2|] end.
  cbn [log trace this instance]. rewrite !constructed_app. cbn [constructed flat_map app].
  rewrite !length_app. cbn [List.length]. rewrite <- app_assoc.
  repeat split; try assumption. lia.
Qed.

(** Two calls on a fresh adapter with the token "tok". *)
Lemma C8_witness :
  exists o1 o2 w1 w2,
    getAPI (Sample.world (Sample.adapter None (Some "tok") None)
              Sample.accepting) = (Return o1, w1)
    /\ getAPI w1 = (Return o2, w2)
    /\ instance o2 = S (instance o1)
    /\ constructed (trace w2) = [] ++ [o1; o2]
    /\ octokit (this w2) = None.
Proof.
  apply (C8_getAPI_constructs_a_client_on_every_call
           (Sample.world (Sample.adapter None (Some "tok") None)
              Sample.accepting) "tok");
    [reflexivity | reflexivity | discriminate].
Defined.

(** ** Updating and deleting a comment *)

Lemma log_log e1 e2 w : log e2 (log e1 w) = log (e1 ++ e2) w.
Proof. unfold log. cbn [this server trace]. now rewrite app_assoc. Qed.

Lemma updateActivity_returns context a w :
  truthy_ident (id a) = true -> conversation a <> None ->
  exists w', updateActivity context a w = (Return tt, w').
Proof.
  intros Hid Hc. unfold updateActivity. rewrite Hid.
  destruct (conversation a) as [c|]; [|congruence].
  unfold try_catch.
  match goal with |- context [match ?m w with _ => _ end] =>
    destruct (m w) as [[[]|e] w1] end.
  - now exists w1.
  - unfold bind, emit. eexists. reflexivity.
Qed.

Section DeleteActivity.

Variables (context : TurnContext) (reference : ConversationReference).
Variable w : World.
Hypothesis has_id : truthy_ident (reference_activityId reference) = true.
Hypothesis has_conversation : reference_conversation reference <> None.

Lemma deleteActivity_rethrows e w1 :
  getAPI w = (Throw e, w1) ->
  deleteActivity context reference w
  = (Throw e, log [console_error "Error deleting activity"] w1).
Proof.
  intros H. unfold deleteActivity. rewrite has_id.
  destruct (reference_conversation reference); [|congruence].
  erewrite try_catch_Throw; [reflexivity|].
  now apply bind_Throw.
Qed.

Variables (o : Octokit) (w1 : World) (m : GithubMessage) (t : GithubTarget).
Hypothesis client : getAPI w = (Return o, w1).
Hypothesis mapped : activityToGithub (activity context) = Return m.
Hypothesis has_target : target m = Some t.
Hypothesis comment_target : target_type t = Some "issue_comment".

(** Whatever the server does with the request, [deleteActivity]
    returns: the promise of the request is never awaited. *)
Lemma deleteActivity_returns :
  deleteActivity context reference w
  = (Return tt,
     log [request o (issues_deleteComment (owner t) (target_repo t)
                       (activityId m));
          console_log;
          console_error "Error deleting activity:"] w1).
Proof.
  unfold deleteActivity. rewrite has_id.
  destruct (reference_conversation reference); [|congruence].
  apply try_catch_Return.
  rewrite (bind_Return _ _ _ _ _ client).
  unfold lift at 1. rewrite mapped. unfold bind at 1.
  unfold target_of. rewrite has_target. unfold bind at 1, ret at 1.
  unfold string_in. rewrite comment_target.
  cbn [existsb String.eqb Ascii.eqb Bool.eqb orb].
  cbv [bind call emit ret status_below_300 negb].
  now rewrite !log_log.
Qed.

End DeleteActivity.

(** C6. On a server that rejects every request, [deleteActivity] for an
    [issue_comment] target sends its request, logs and returns normally:
    the rejection is not raised to the caller, because the promise is
    not awaited. [updateActivity] on the same server logs and returns
    normally too, so no asymmetry shows for a failure of the API; only
    the failures before the request ([deleteActivity_rethrows]) are
    raised again. *)
Theorem C6_deleteActivity_swallows_a_rejected_request :
  let w := Sample.world (Sample.adapter None (Some "tok") None)
             Sample.failing in
  let o := {| instance := 0; auth := "tok"; userAgent := "Botkit" |} in
  let context := Sample.turn (Sample.message 99 "bye") in
  let reference := {| reference_activityId := Some (Num 99);
                      reference_conversation := Some Sample.thread |} in
  let deletion := issues_deleteComment (Some "o") (Some "r") (Some (Num 99)) in
  let update :=
    issues_updateComment (Some "o") (Some "r") (Some (Num 99)) (Some "bye") in
  server w 0%nat o deletion = Rejected (HttpError 404)
  /\ deleteActivity context reference w
     = (Return tt,
        log [construct o; request o deletion; console_log;
             console_error "Error deleting activity:"] w)
  /\ updateActivity context (Sample.message 99 "bye") w
     = (Return tt,
        log [construct o; request o update;
             console_error "Error updating activity on Github:"] w).
Proof. vm_compute. repeat split. Qed.

(** ** The mention and command classifier *)

Lemma slash_command_pattern :
  string_literal "^\/\w+" = Some "^/w+"%string
  /\ RegExp.compile "^/w+" "i"
     = Some {| RegExp.anchored := true;
               RegExp.pieces :=
                 [{| RegExp.what := RegExp.Lit "/"; RegExp.plus := false |};
                  {| RegExp.what := RegExp.Lit "w"; RegExp.plus := true |}];
               RegExp.ignoreCase := true |}.
Proof. split; reflexivity. Qed.

Lemma matches_slash c :
  RegExp.atom_matches true (RegExp.Lit "/") c = true <-> c = "/"%char.
Proof.
  each_char c; vm_compute; split; intros H; try discriminate H; reflexivity.
Qed.

Lemma matches_w c :
  RegExp.atom_matches true (RegExp.Lit "w") c = true
  <-> c = "w"%char \/ c = "W"%char.
Proof.
  each_char c; vm_compute; split; intros H;
    try discriminate H; try (destruct H as [H|H]; discriminate H); auto.
Qed.

(** The expression built from the string literal matches a slash
    followed by the letter w, not by a word. *)
Lemma slash_command_matches re s :
  RegExp.compile "^/w+" "i" = Some re ->
  RegExp.test re s = true
  <-> exists c rest,
        s = String "/" (String c rest) /\ (c = "w"%char \/ c = "W"%char).
Proof.
  intros E. injection E as <-.
  unfold RegExp.test, RegExp.exec.
  cbn [RegExp.anchored RegExp.ignoreCase RegExp.pieces RegExp.match_here
         RegExp.plus RegExp.what].
  destruct s as [|c0 s].
  { split; [discriminate|]. intros (c & rest & H & _). discriminate H. }
  destruct (RegExp.atom_matches true (RegExp.Lit "/") c0) eqn:E0.
  2:{ split; [discriminate|]. intros (c & rest & H & _).
      injection H as -> _.
      assert (T : RegExp.atom_matches true (RegExp.Lit "/") "/" = true)
        by reflexivity.
      congruence. }
  apply matches_slash in E0. subst c0.
  destruct s as [|c1 s].
  { split; [discriminate|]. intros (c & rest & H & _). discriminate H. }
  destruct (RegExp.atom_matches true (RegExp.Lit "w") c1) eqn:E1.
  - apply matches_w in E1. split; [|intros _].
    + intros _. now exists c1, s.
    + match goal with
      | |- context [match ?x with Some r => Some r | None => Some s end] =>
          destruct x
      end; reflexivity.
  - split; [discriminate|]. intros (c & rest & H & Hc).
    injection H as -> _. apply matches_w in Hc. congruence.
Qed.

(** On a text that mentions nobody, the classifier tags a command
    exactly when the text starts with a slash and the letter w. *)
Lemma MessageType_onTurn_unmentioned (a : Activity) (ts : TurnState)
  (w : World) (bot : Identity) (mention direct_mention : RegExp.t)
  (s : string) :
  type a = Message -> is_Some (channelData a) = true ->
  identity (this w) = Some bot ->
  RegExp.compile ("@" ++ login bot) "i" = Some mention ->
  RegExp.compile ("^" ++ "@" ++ login bot) "i" = Some direct_mention ->
  text a = Some s ->
  RegExp.test direct_mention s = false -> RegExp.test mention s = false ->
  MessageType_onTurn ({| activity := a; turnState := ts |}, w)
  = (Return tt,
     ({| activity :=
           match s with
           | String "/" (String c rest) =>
               if (Ascii.eqb c "w" || Ascii.eqb c "W")%bool then
                 set_text (Some (String c rest))
                   (set_type Event (set_botkitEventType "slash_command" a))
               else a
           | _ => a
           end;
         turnState := ts |}, w)).
Proof.
  intros Hm Hp Hi Cm Cd Ht Nd Nm.
  unfold MessageType_onTurn. unfold bind at 1. unfold get_activity at 1.
  cbn [activity]. rewrite Hm, Hp.
  unfold bind at 1. unfold in_world at 1.
  rewrite (getBotUserFromAPI_cached w bot Hi).
  unfold new_RegExp at 1. rewrite Cm. unfold bind at 1, ret at 1.
  unfold new_RegExp at 1. rewrite Cd. unfold bind at 1, ret at 1.
  change (new_RegExp_literal "^\/\w+" "i")
    with (@ret Turn _
            {| RegExp.anchored := true;
               RegExp.pieces :=
                 [{| RegExp.what := RegExp.Lit "/"; RegExp.plus := false |};
                  {| RegExp.what := RegExp.Lit "w"; RegExp.plus := true |}];
               RegExp.ignoreCase := true |}).
  unfold bind at 1, ret at 1.
  rewrite Ht. unfold text_matches at 1 2.
  rewrite Nd, Nm, !andb_false_r. unfold text_matches.
  match goal with |- context [RegExp.test ?re s] =>
    pose proof (slash_command_matches re s eq_refl) as Hs;
    destruct (RegExp.test re s) eqn:T end.
  - destruct (proj1 Hs eq_refl) as (c & rest & -> & Hc).
    assert (Ec : (Ascii.eqb c "w" || Ascii.eqb c "W")%bool = true).
    { destruct Hc as [-> | ->]; reflexivity. }
    rewrite Ec. reflexivity.
  - rewrite andb_false_r.
    destruct s as [|c0 s']; [reflexivity|].
    destruct (Ascii.eqb_spec c0 "/") as [->|N0].
    2:{ destruct c0 as [[] [] [] [] [] [] [] []]; try reflexivity;
          contradiction N0; reflexivity. }
    destruct s' as [|c rest]; [reflexivity|].
    destruct (Ascii.eqb c "w" || Ascii.eqb c "W")%bool eqn:Ec;
      [|reflexivity].
    assert (X : false = true); [|discriminate X].
    apply Hs. exists c, rest. split; [reflexivity|].
    apply orb_true_iff in Ec.
    destruct Ec as [E|E]; apply Ascii.eqb_eq in E; auto.
Qed.

(** C4. The text "/release" is not classified: the middleware leaves the
    activity untagged, message-kind and with its text unchanged, because
    the pattern, written as a string literal, is [^/w+]
    ([slash_command_pattern], [slash_command_matches],
    [MessageType_onTurn_unmentioned]). *)
Theorem C4_release_is_not_a_slash_command :
  let w := Sample.world (Sample.adapter None (Some "tok") (Some Sample.mybot))
             Sample.accepting in
  let context := Sample.turn (Sample.message 99 "/release") in
  exists context',
    MessageType_onTurn (context, w) = (Return tt, (context', w))
    /\ tag (activity context') = None
    /\ type (activity context') = Message
    /\ text (activity context') = Some "/release"%string.
Proof. eexists. vm_compute. repeat split. Qed.

Example whatever_is_a_slash_command :
  let w := Sample.world (Sample.adapter None (Some "tok") (Some Sample.mybot))
             Sample.accepting in
  let context := Sample.turn (Sample.message 99 "/whatever") in
  exists context',
    MessageType_onTurn (context, w) = (Return tt, (context', w))
    /\ tag (activity context') = Some "slash_command"%string
    /\ type (activity context') = Event
    /\ text (activity context') = Some "whatever"%string.
Proof. eexists. vm_compute. repeat split. Qed.

(** Written as a regular expression literal, the pattern does match. *)
Example release_matches_the_literal :
  option_map (fun re => RegExp.test re "/release")
    (RegExp.compile "^\/\w+" "i") = Some true.
Proof. reflexivity. Qed.

Example direct_mention_is_stripped :
  let w := Sample.world (Sample.adapter None (Some "tok") (Some Sample.mybot))
             Sample.accepting in
  let context := Sample.turn (Sample.message 99 "@mybot deploy now") in
  exists context',
    MessageType_onTurn (context, w) = (Return tt, (context', w))
    /\ tag (activity context') = Some "direct_mention"%string
    /\ text (activity context') = Some "deploy now"%string.
Proof. eexists. vm_compute. repeat split. Qed.

Example mention_keeps_the_text :
  let w := Sample.world (Sample.adapter None (Some "tok") (Some Sample.mybot))
             Sample.accepting in
  let context := Sample.turn (Sample.message 99 "please @mybot look") in
  exists context',
    MessageType_onTurn (context, w) = (Return tt, (context', w))
    /\ tag (activity context') = Some "mention"%string
    /\ text (activity context') = Some "please @mybot look"%string.
Proof. eexists. vm_compute. repeat split. Qed.

(** ** The event-type tagger *)

Lemma neq_string_true o s : o <> Some s -> neq_string o s = true.
Proof.
  intros H. destruct o as [x|]; [|reflexivity]. simpl.
  destruct (String.eqb_spec x s); [congruence|reflexivity].
Qed.

Ltac tags T1 T2 T3 :=
  split; [exact T1 | split; [exact T2 | split; [exact T3 |]]].

Ltac run_turn_monad :=
  cbv [bind ret throw assign_conversation get_activity modify_activity].

(** C7, in the form that holds. For an event-kind activity with a non-empty label
    and a payload not tagged [slash_command], the tagger sets the tag to
    the label, an underscore and the action when the action is a
    non-empty string, and to the label alone when the action is absent
    or empty; for [pull_request] with the action "opened" the tag is
    "pull_request_opened", and when the activity has a conversation and
    the payload names its repository the conversation is back-filled
    with the group flag, the type [pull_request], the number of the
    payload and the full name of the repository. *)
Theorem C7_event_type_tag (context : TurnContext) (w : World)
  (eventType : string) (cd : Payload) :
  type (activity context) = Event ->
  label (activity context) = Some eventType -> eventType <> "" ->
  channelData (activity context) = Some cd ->
  botkitEventType cd <> Some "slash_command"%string ->
  exists r context',
    EventType_onTurn (context, w) = (r, (context', w))
    /\ (forall act, action cd = Some act -> act <> "" ->
        tag (activity context') = Some (eventType ++ "_" ++ act)%string)
    /\ (action cd = None \/ action cd = Some ""%string ->
        tag (activity context') = Some eventType)
    /\ (eventType = "pull_request"%string ->
        action cd = Some "opened"%string ->
        tag (activity context') = Some "pull_request_opened"%string)
    /\ (eventType = "pull_request"%string ->
        forall c full_name,
          conversation (activity context) = Some c ->
          repository cd = Some full_name ->
          r = Return tt
          /\ conversation (activity context')
             = Some {| isGroup := Some true;
                       conversationType := Some "pull_request"%string;
                       conversation_id := option_map Num (number cd);
                       repo := Some full_name |}).
Proof.
  intros Ht Hl Hne Hcd Hslash.
  destruct context as [a ts]. cbn [activity] in *.
  unfold EventType_onTurn. unfold bind at 1, get_activity at 1.
  cbn [activity]. rewrite Ht, Hl, Hcd.
  apply truthy_Some in Hne. rewrite Hne, (neq_string_true _ _ Hslash).
  cbn [andb].
  set (t := match action cd with
            | Some act => if truthy (Some act)
                          then (eventType ++ "_" ++ act)%string
                          else eventType
            | None => eventType
            end).
  assert (Htag : forall a', channelData a' = channelData (set_botkitEventType t a) ->
                 (forall act, action cd = Some act -> act <> "" ->
                    tag a' = Some (eventType ++ "_" ++ act)%string)
                 /\ (action cd = None \/ action cd = Some ""%string ->
                    tag a' = Some eventType)
                 /\ (eventType = "pull_request"%string ->
                     action cd = Some "opened"%string ->
                     tag a' = Some "pull_request_opened"%string)).
  { intros a' E. unfold tag. rewrite E. cbn [set_botkitEventType channelData].
    rewrite Hcd. cbn [option_map botkitEventType]. subst t.
    split; [|split].
    - intros act Ha Hact. rewrite Ha. apply truthy_Some in Hact.
      now rewrite Hact.
    - intros [Ha|Ha]; rewrite Ha; reflexivity.
    - intros -> Ha. rewrite Ha. reflexivity. }
  assert (Estep :
    (match action cd with
     | Some act =>
         if truthy (Some act)
         then modify_activity (set_botkitEventType (eventType ++ "_" ++ act))
         else modify_activity (set_botkitEventType eventType)
     | None => modify_activity (set_botkitEventType eventType)
     end) = modify_activity (set_botkitEventType t)).
  { subst t. destruct (action cd) as [act|]; [|reflexivity].
    destruct (truthy (Some act)); reflexivity. }
  rewrite Estep. clearbody t. clear Estep.
  destruct (String.eqb_spec eventType "pull_request") as [Epr|Epr].
  - destruct (conversation a) as [c|] eqn:Ec;
      [destruct (repository cd) as [full_name|] eqn:Er|].
    + eexists; eexists. split.
      { run_turn_monad. cbn [activity set_botkitEventType conversation
                               set_conversation turnState].
        rewrite Ec. reflexivity. }
      cbn [activity].
      destruct (Htag (set_conversation
                        {| isGroup := Some true;
                           conversationType := Some eventType;
                           conversation_id := option_map Num (number cd);
                           repo := Some full_name |}
                        (set_botkitEventType t a)) eq_refl) as (T1 & T2 & T3).
      cbn [set_conversation set_botkitEventType channelData conversation
             isGroup conversationType conversation_id repo] in *.
      tags T1 T2 T3.
      intros _ c' fn' Hc' Hfn'. split; [reflexivity|].
      rewrite Epr. congruence.
    + eexists; eexists. split.
      { run_turn_monad. cbn [activity set_botkitEventType conversation
                               set_conversation turnState].
        rewrite Ec. reflexivity. }
      cbn [activity].
      match goal with |- context [tag ?a'] =>
        destruct (Htag a' eq_refl) as (T1 & T2 & T3) end.
      tags T1 T2 T3. intros _ c' fn' _ Hfn'. discriminate.
    + eexists; eexists. split.
      { run_turn_monad. cbn [activity set_botkitEventType conversation
                               set_conversation turnState].
        rewrite Ec. reflexivity. }
      cbn [activity].
      match goal with |- context [tag ?a'] =>
        destruct (Htag a' eq_refl) as (T1 & T2 & T3) end.
      tags T1 T2 T3. intros _ c' fn' Hc' _. discriminate.
  - destruct (String.eqb_spec eventType "issues") as [Eis|Eis].
    + destruct (conversation a) as [c|] eqn:Ec;
        [destruct (issue cd) as [n|] eqn:En;
         [destruct (repository cd) as [full_name|] eqn:Er|]|];
        (eexists; eexists; split;
         [ run_turn_monad;
           cbn [activity set_botkitEventType conversation set_conversation
                  turnState];
           rewrite Ec; reflexivity
         | cbn [activity];
           match goal with |- context [tag ?a'] =>
             destruct (Htag a' eq_refl) as (T1 & T2 & T3) end;
           tags T1 T2 T3; intros E; contradiction ]).
    + eexists; eexists. split; [reflexivity|]. cbn [activity].
      destruct (Htag (set_botkitEventType t a) eq_refl) as (T1 & T2 & T3).
      tags T1 T2 T3; intros E; contradiction.
Qed.

(** A pull request that was opened. *)
Lemma C7_witness :
  let context :=
    Sample.turn (Sample.event "pull_request"
                   (Sample.pull_request_event (Some "opened"))) in
  let w := Sample.world (Sample.adapter None (Some "tok") None)
             Sample.accepting in
  exists context',
    EventType_onTurn (context, w) = (Return tt, (context', w))
    /\ tag (activity context') = Some "pull_request_opened"%string
    /\ conversation (activity context')
       = Some {| isGroup := Some true;
                 conversationType := Some "pull_request"%string;
                 conversation_id := Some (Num 3);
                 repo := Some "o/r"%string |}.
Proof.
  intros context w.
  destruct (C7_event_type_tag context w "pull_request"
              (Sample.pull_request_event (Some "opened")))
    as (r & context' & E & _ & _ & T & B);
    [reflexivity | reflexivity | discriminate | reflexivity | discriminate |].
  destruct (B eq_refl _ _ eq_refl eq_refl) as [-> Hc].
  exists context'. split; [exact E|]. split; [apply T; reflexivity|exact Hc].
Defined.

(** C7 as stated fails for a payload whose action field is the empty
    string: the field is there, and the tag is the label alone. *)
Lemma C7_empty_action_is_not_appended :
  let cd := Sample.pull_request_event (Some "") in
  let context := Sample.turn (Sample.event "pull_request" cd) in
  let w := Sample.world (Sample.adapter None (Some "tok") None)
             Sample.accepting in
  action cd = Some ""%string
  /\ tag (activity (fst (snd (EventType_onTurn (context, w)))))
     = Some "pull_request"%string
  /\ tag (activity (fst (snd (EventType_onTurn (context, w)))))
     <> Some ("pull_request" ++ "_" ++ "")%string.
Proof. vm_compute. repeat split. discriminate. Qed.


(** ** Sending a batch of replies *)

Lemma requests_app tr1 tr2 : requests (tr1 ++ tr2) = requests tr1 ++ requests tr2.
Proof. apply flat_map_app. Qed.

Lemma console_errors_app tr1 tr2 :
  console_errors (tr1 ++ tr2) = console_errors tr1 ++ console_errors tr2.
Proof. apply flat_map_app. Qed.

Ltac run_world :=
  cbv [bind ret throw lift try_catch call emit await target_of
         status_below_300].

Ltac traces :=
  cbn [log trace this server];
  rewrite ?requests_app, ?constructed_app, ?console_errors_app, ?length_app;
  cbn [requests constructed console_errors flat_map app List.length].

Lemma client_for_any adapter k k' :
  client_for adapter k = None -> client_for adapter k' = None.
Proof.
  unfold client_for. destruct (octokit adapter); [discriminate|].
  destruct (githubToken (options adapter)) as [t|]; [|reflexivity].
  destruct (truthy (Some t)); [discriminate|reflexivity].
Qed.

Lemma getAPI_spec w :
  getAPI w
  = match client_for (this w) (List.length (constructed (trace w))) with
    | Some o =>
        (Return o,
         match octokit (this w) with
         | Some _ => w
         | None => log [construct o] w
         end)
    | None => (Throw (Error "Missing api token."), w)
    end.
Proof.
  unfold getAPI, client_for, bind, get_this.
  destruct (octokit (this w)); [reflexivity|].
  destruct (githubToken (options (this w))) as [t|]; [|reflexivity].
  destruct (truthy (Some t)); reflexivity.
Qed.

Section SendActivity.

Variables (a : Activity) (responses : list ResourceResponse) (w : World).
Hypothesis is_sendable : sendable a.

Let n := List.length (requests (trace w)).
Let k := List.length (constructed (trace w)).

Lemma sendActivity_step :
  exists w',
    sendActivity a responses w
    = (Return (responses
                 ++ expected_responses (server w) (this w) n k [a]), w')
    /\ this w' = this w /\ server w' = server w
    /\ requests (trace w') = requests (trace w) ++ requests_for (this w) [a]
    /\ List.length (constructed (trace w')) = clients_after (this w) k
    /\ (List.length (console_errors (trace w'))
        + List.length (expected_responses (server w) (this w) n k [a])
        = S (List.length (console_errors (trace w))))%nat.
Proof.
  destruct is_sendable as [is_message is_mappable].
  unfold sendActivity. rewrite is_message.
  unfold mappable in is_mappable.
  unfold requests_for, clients_after. cbn [expected_responses flat_map].
  rewrite app_nil_r. unfold outbound.
  destruct (activityToGithub a) as [m|]; [|discriminate].
  unfold lift at 1. unfold bind at 1.
  unfold try_catch. unfold bind at 1. rewrite getAPI_spec. fold k.
  destruct (client_for (this w) k) as [o|] eqn:C.
  2:{ rewrite (client_for_any _ _ O C). run_world. eexists.
      split; [rewrite app_nil_r; reflexivity|].
      traces. destruct (octokit (this w));
        repeat split; rewrite ?app_nil_r; try reflexivity; lia. }
  assert (C0 : exists o0, client_for (this w) O = Some o0).
  { destruct (client_for (this w) O) eqn:C0; [eauto|].
    rewrite (client_for_any _ _ k C0) in C. discriminate. }
  destruct C0 as [o0 ->].
  set (w1 := match octokit (this w) with
             | Some _ => w
             | None => log [construct o] w
             end).
  assert (W1 : this w1 = this w /\ server w1 = server w
               /\ requests (trace w1) = requests (trace w)
               /\ console_errors (trace w1) = console_errors (trace w)
               /\ List.length (constructed (trace w1))
                  = match octokit (this w) with
                    | Some _ => k
                    | None => S k
                    end).
  { subst w1. destruct (octokit (this w)); traces;
      rewrite ?app_nil_r; repeat split; fold k; lia. }
  destruct W1 as (Wthis & Wserver & Wreq & Werr & Wcon).
  clearbody w1. run_world.
  destruct (target m) as [t|]; cbv beta iota.
  2:{ eexists. split; [rewrite app_nil_r; reflexivity|].
      traces. rewrite Wreq, Werr, Wcon, app_nil_r.
      repeat split; try assumption; lia. }
  destruct (string_in (target_type t) _); cbv beta iota.
  2:{ eexists. split; [rewrite app_nil_r; reflexivity|].
      traces. rewrite Wreq, Werr, Wcon, app_nil_r.
      repeat split; try assumption; lia. }
  rewrite Wserver, Wreq. fold n.
  destruct (server w n o _) as [[st d]|e]; cbv beta iota;
    cbn [status data];
    [destruct (st <? 300)|]; cbv beta iota;
    (eexists; split;
     [ rewrite ?app_nil_r; reflexivity
     | traces; rewrite Wreq, Werr, Wcon;
       repeat split; rewrite ?app_nil_r, <- ?app_assoc;
       cbn [app]; try assumption; try reflexivity; lia ]).
Qed.

End SendActivity.

Lemma expected_responses_cons s adapter n k a rest :
  expected_responses s adapter n k (a :: rest)
  = expected_responses s adapter n k [a]
      ++ expected_responses s adapter
           (n + List.length (requests_for adapter [a]))
           (clients_after adapter k) rest.
Proof.
  unfold requests_for. cbn [expected_responses flat_map].
  rewrite app_nil_r.
  destruct (client_for adapter k) as [o|] eqn:C.
  - assert (C0 : exists o0, client_for adapter O = Some o0).
    { destruct (client_for adapter O) eqn:C0; [eauto|].
      rewrite (client_for_any _ _ k C0) in C. discriminate. }
    destruct C0 as [o0 ->].
    destruct (outbound a) as [c|]; cbn [List.length app].
    + rewrite app_nil_r, Nat.add_1_r. reflexivity.
    + rewrite Nat.add_0_r. reflexivity.
  - rewrite (client_for_any _ _ O C). cbn [List.length app].
    rewrite Nat.add_0_r. reflexivity.
Qed.

Lemma requests_for_cons adapter a rest :
  requests_for adapter (a :: rest)
  = requests_for adapter [a] ++ requests_for adapter rest.
Proof.
  unfold requests_for. destruct (client_for adapter O); [|reflexivity].
  cbn [flat_map]. now rewrite app_nil_r.
Qed.

Lemma sendActivities_from_spec activities :
  Forall sendable activities ->
  forall responses w,
    let n := List.length (requests (trace w)) in
    let k := List.length (constructed (trace w)) in
    let expected := expected_responses (server w) (this w) n k activities in
    exists w',
      sendActivities_from activities responses w
      = (Return (responses ++ expected), w')
      /\ requests (trace w')
         = requests (trace w) ++ requests_for (this w) activities
      /\ (List.length (console_errors (trace w')) + List.length expected
          = List.length (console_errors (trace w)) + List.length activities)%nat.
Proof.
  induction 1 as [|a rest Hs _ IH]; intros responses w.
  - cbv zeta. exists w. unfold requests_for.
    cbn [sendActivities_from expected_responses flat_map List.length].
    destruct (client_for (this w) 0);
      rewrite !app_nil_r, !Nat.add_0_r; repeat split.
  - cbv zeta. cbn [sendActivities_from].
    destruct (sendActivity_step a responses w Hs)
      as (w1 & E1 & Hthis & Hserver & Hreq & Hcon & Herr).
    rewrite (bind_Return _ _ _ _ _ E1). cbv beta.
    destruct (IH (responses
                    ++ expected_responses (server w) (this w)
                         (List.length (requests (trace w)))
                         (List.length (constructed (trace w))) [a])
                w1) as (w' & E' & Hreq' & Herr').
    exists w'. rewrite (expected_responses_cons _ _ _ _ a rest).
    rewrite Hserver, Hthis, Hreq, Hcon, length_app in E', Herr'.
    rewrite Hthis in Hreq'.
    split; [rewrite E', app_assoc; reflexivity|].
    split.
    + rewrite Hreq', Hreq, <- app_assoc, (requests_for_cons _ a rest).
      reflexivity.
    + rewrite length_app. cbn [List.length]. lia.
Qed.

(** For a batch of message-kind activities that [activityToGithub] maps
    without raising, [sendActivities] returns normally with the records
    of exactly the sends that were answered with a status below 300, in
    order; every activity with a supported target leads to one request
    whatever became of the requests before it, and every activity
    without a record leaves one line on the error console. So a batch of
    two whose first send fails and whose second succeeds returns one
    record, for the second. *)
Theorem sendActivities_partial_success (context : TurnContext)
  (activities : list Activity) (w : World) :
  Forall sendable activities ->
  let n := List.length (requests (trace w)) in
  let k := List.length (constructed (trace w)) in
  let expected := expected_responses (server w) (this w) n k activities in
  exists w',
    sendActivities context activities w = (Return expected, w')
    /\ requests (trace w')
       = requests (trace w) ++ requests_for (this w) activities
    /\ (List.length (console_errors (trace w')) + List.length expected
        = List.length (console_errors (trace w)) + List.length activities)%nat
    /\ forall a1 a2 o1 o2 c1 c2 st d,
         activities = [a1; a2] ->
         client_for (this w) k = Some o1 ->
         client_for (this w) (clients_after (this w) k) = Some o2 ->
         outbound a1 = Some c1 -> outbound a2 = Some c2 ->
         failed (server w n o1 c1) = true ->
         server w (S n) o2 c2 = Resolved {| status := st; data := d |} ->
         st < 300 ->
         expected = [record_for a2 d].
Proof.
  intros Hall. cbv zeta.
  destruct (sendActivities_from_spec activities Hall [] w)
    as (w' & E & Hreq & Herr).
  exists w'. split; [exact E|]. split; [exact Hreq|]. split; [exact Herr|].
  intros a1 a2 o1 o2 c1 c2 st d -> C1 C2 H1 H2 Hf Hs Hst.
  cbn [expected_responses]. rewrite C1, C2, H1, H2, Hs. cbn [status data].
  apply Z.ltb_lt in Hst. rewrite Hst. unfold failed in Hf.
  destruct (server w _ o1 c1) as [[st1 d1]|e]; cbn [status] in *;
    try reflexivity.
  destruct (st1 <? 300); [discriminate|reflexivity].
Qed.

(** Two replies on a server that rejects its first request. *)
Lemma sendActivities_partial_success_witness :
  let w := Sample.world (Sample.adapter None (Some "tok") None) Sample.flaky in
  let activities := [Sample.message 1 "first"; Sample.message 2 "second"] in
  let expected := expected_responses (server w) (this w) 0 0 activities in
  expected = [record_for (Sample.message 2 "second")
                {| data_id := 1001; data_login := None |}]
  /\ exists w',
       sendActivities (Sample.turn (Sample.message 99 "hello")) activities w
       = (Return expected, w')
       /\ requests (trace w')
          = requests (trace w) ++ requests_for (this w) activities
       /\ (List.length (console_errors (trace w')) + List.length expected
           = List.length (console_errors (trace w))
             + List.length activities)%nat.
Proof.
  intros w activities expected.
  destruct (sendActivities_partial_success
              (Sample.turn (Sample.message 99 "hello")) activities w)
    as (w' & E & Hreq & Herr & Htwo).
  - repeat constructor.
  - split.
    + apply (Htwo _ _ _ _ _ _ 201 _ eq_refl eq_refl eq_refl eq_refl eq_refl);
        reflexivity.
    + exists w'. repeat split; assumption.
Defined.

Example first_send_fails_second_succeeds :
  let w := Sample.world (Sample.adapter None (Some "tok") None) Sample.flaky in
  exists w',
    sendActivities (Sample.turn (Sample.message 99 "hello"))
      [Sample.message 1 "first"; Sample.message 2 "second"] w
    = (Return [{| response_id := 1001;
                  response_activityId := Some (Num 2);
                  response_conversation := Some Sample.thread |}], w')
    /\ console_errors (trace w') = ["Error sending activity to API:"%string].
Proof. eexists. vm_compute. split; reflexivity. Qed.

(** C5. A batch whose first activity is a reply into a conversation
    without a repository (the conversation of a [push] event) is not
    sent independently: [activityToGithub] raises one line above the
    [try] of the loop, so [sendActivities] raises, nothing is logged,
    and the second activity, which on its own is sent and recorded, is
    never attempted. [updateActivity] and [deleteActivity] make the same
    call inside their [try]: on such an activity the first logs and
    returns, the second logs and raises again. What holds for the
    batches that map is [sendActivities_partial_success]. *)
Theorem C5_unmappable_activity_aborts_the_batch :
  let w := Sample.world (Sample.adapter None (Some "tok") None)
             Sample.accepting in
  let push := Sample.event "push" (Sample.pull_request_event None) in
  let first := Sample.reply push "thanks" in
  let second := Sample.reply (Sample.message 99 "hello") "welcome" in
  let o := {| instance := 0; auth := "tok"; userAgent := "Botkit" |} in
  let c := issues_createComment (Some "o") (Some "r") (Some (Num 42))
             (Some "welcome")%string in
  let reference := {| reference_activityId := Some (Num 99);
                      reference_conversation := conversation first |} in
  type first = Message /\ type second = Message
  /\ sendActivities (Sample.turn push) [first; second] w
     = (Throw (TypeError "Cannot read property 'split' of undefined"), w)
  /\ sendActivities (Sample.turn push) [second] w
     = (Return [record_for second {| data_id := 1000; data_login := None |}],
        log [construct o; request o c] w)
  /\ updateActivity (Sample.turn push) (set_type Message push) w
     = (Return tt, log [console_error "Error updating activity on Github:"] w)
  /\ deleteActivity (Sample.turn first) reference w
     = (Throw (TypeError "Cannot read property 'split' of undefined"),
        log [construct o; console_error "Error deleting activity"] w).
Proof. vm_compute. repeat split. Qed.

(** ** Receiving a webhook *)

(** The signature check leaves the world as it is, or rejects the
    request with status 401. *)
Lemma verifySignature_world req w r w1 :
  verifySignature req w = (r, w1) ->
  (w1 = w /\ r <> Return false)
  \/ (w1 = log [res_status (Some 401)] w /\ r = Return false).
Proof.
  unfold verifySignature, bind, get_this, lift.
  destruct (webhookSecret (options (this w))) as [secret|];
    [|intros [= <- <-]; left; split; [reflexivity|discriminate]].
  destruct (rawBody req) as [body|];
    [|intros [= <- <-]; left; split; [reflexivity|discriminate]].
  destruct (truthy (Some secret) && truthy (Some body));
    [|intros [= <- <-]; left; split; [reflexivity|discriminate]].
  destruct (header req "X-Hub-Signature") as [h|];
    [|intros [= <- <-]; left; split; [reflexivity|discriminate]].
  destruct (Crypto.timingSafeEqual _ _) as [[]|e]; cbn [negb];
    intros [= <- <-];
    [left; split; [reflexivity|discriminate]
    |right; split; reflexivity
    |left; split; [reflexivity|discriminate]].
Qed.

Lemma dispatched_app tr1 tr2 :
  dispatched (tr1 ++ tr2) = dispatched tr1 ++ dispatched tr2.
Proof. apply flat_map_app. Qed.

Section OwnComment.

Variables (req : Request) (logic : TurnContext -> M TurnContext).
Variables (user : Identity) (ev : Payload) (c : Comment).
Hypothesis is_issue_comment :
  header req "X-Github-Event" = Some "issue_comment"%string.
Hypothesis has_event : req_body req = Some ev.
Hypothesis has_comment : comment ev = Some c.
Hypothesis own : user_id (comment_user c) = identity_user_id user.

Lemma receive_drops_own_comment w :
  identity (this w) = Some user -> receive req logic w = (Return tt, w).
Proof.
  intros Hi. unfold receive.
  rewrite (bind_Return _ _ _ _ _ (getBotUserFromAPI_cached w user Hi)).
  rewrite is_issue_comment, has_event.
  cbn [string_in existsb String.eqb Ascii.eqb Bool.eqb orb].
  unfold issue_comment_activity. rewrite has_comment, own, Z.eqb_refl.
  reflexivity.
Qed.

End OwnComment.

(** C2. For an [issue_comment] event whose author is the cached bot
    identity, [processActivity] does nothing after the signature check:
    it builds no activity, runs neither the middlewares nor the bot
    logic, sends no response, and returns (or raises what the signature
    check raised). *)
Theorem C2_own_comment_is_dropped (w : World) (req : Request)
  (logic : TurnContext -> M TurnContext) (user : Identity) (ev : Payload)
  (c : Comment) :
  identity (this w) = Some user ->
  header req "X-Github-Event" = Some "issue_comment"%string ->
  req_body req = Some ev -> comment ev = Some c ->
  user_id (comment_user c) = identity_user_id user ->
  receive req logic w = (Return tt, w)
  /\ processActivity req logic w
     = match verifySignature req w with
       | (Return _, w1) => (Return tt, w1)
       | (Throw e, w1) => (Throw e, w1)
       end
  /\ dispatched (trace (snd (processActivity req logic w)))
     = dispatched (trace w).
Proof.
  intros Hi Hh Hev Hc Hown.
  assert (Hdrop : forall w1, this w1 = this w ->
                    receive req logic w1 = (Return tt, w1)).
  { intros w1 Hthis.
    apply (receive_drops_own_comment req logic user ev c Hh Hev Hc Hown).
    now rewrite Hthis. }
  split; [now apply Hdrop|].
  assert (E : processActivity req logic w
              = match verifySignature req w with
                | (Return _, w1) => (Return tt, w1)
                | (Throw e, w1) => (Throw e, w1)
                end).
  { unfold processActivity, bind.
    destruct (verifySignature req w) as [[[]|e] w1] eqn:V; cbn [negb];
      try reflexivity.
    apply Hdrop.
    destruct (verifySignature_world _ _ _ _ V) as [[-> _]|[_ [=]]].
    reflexivity. }
  split; [exact E|]. rewrite E.
  destruct (verifySignature req w) as [r w1] eqn:V.
  destruct (verifySignature_world _ _ _ _ V) as [[-> _]|[-> ->]].
  - destruct r; reflexivity.
  - cbn [snd log trace]. rewrite dispatched_app. cbn. now rewrite app_nil_r.
Qed.

(** The bot's own comment on an adapter that knows the bot. *)
Lemma C2_witness :
  let w := Sample.world
             (Sample.adapter None (Some "tok") (Some Sample.mybot))
             Sample.accepting in
  let req := Sample.issue_comment_request [] None
               (Sample.comment_event Sample.the_bot "done") in
  receive req Sample.quiet w = (Return tt, w)
  /\ processActivity req Sample.quiet w
     = match verifySignature req w with
       | (Return _, w1) => (Return tt, w1)
       | (Throw e, w1) => (Throw e, w1)
       end
  /\ dispatched (trace (snd (processActivity req Sample.quiet w)))
     = dispatched (trace w).
Proof.
  intros w req.
  apply (C2_own_comment_is_dropped w req Sample.quiet Sample.mybot
           (Sample.comment_event Sample.the_bot "done")
           {| comment_id := 99; comment_body := "done";
              updated_at := "2019-05-15T15:20:33Z";
              comment_user := Sample.the_bot |});
    reflexivity.
Defined.

Example own_comment_gets_no_response :
  let w := Sample.world
             (Sample.adapter None (Some "tok") (Some Sample.mybot))
             Sample.accepting in
  processActivity
    (Sample.issue_comment_request [] None
       (Sample.comment_event Sample.the_bot "done"))
    Sample.quiet w
  = (Return tt, w).
Proof. vm_compute. reflexivity. Qed.

(** C3. For an [issue_comment] event on issue 42 of "o/r" with the body
    "hello", written by somebody else than the bot, the activity that
    [processActivity] builds and runs the turn on is message-kind, with
    the conversation [{isGroup: true, conversationType: "issue_comment",
    id: 42, repo: "o/r"}], the text "hello", the author's login as the
    sender id and the label "issue_comment". *)
Theorem C3_issue_comment_activity (req : Request) (ev : Payload)
  (c : Comment) (user : Identity) (w : World) :
  header req "X-Github-Event" = Some "issue_comment"%string ->
  req_body req = Some ev -> comment ev = Some c ->
  issue ev = Some 42 -> repository ev = Some "o/r"%string ->
  comment_body c = "hello"%string ->
  identity_user_id user <> user_id (comment_user c) ->
  exists a,
    issue_comment_activity "issue_comment" (req_body req) user w
    = (Return (Some a), w)
    /\ type a = Message
    /\ conversation a
       = Some {| isGroup := Some true;
                 conversationType := Some "issue_comment"%string;
                 conversation_id := Some (Num 42);
                 repo := Some "o/r"%string |}
    /\ text a = Some "hello"%string
    /\ option_map account_id (from a)
       = Some (Some (user_login (comment_user c)))
    /\ label a = Some "issue_comment"%string
    /\ forall logic w0,
         verifySignature req w0 = (Return true, w0) ->
         getBotUserFromAPI w0 = (Return user, w) ->
         processActivity req logic w0
         = (context <- run_turn a logic ;; send_response context) w.
Proof.
  intros Hh Hev Hc Hi Hr Hb Hother.
  eexists. split.
  { unfold issue_comment_activity. rewrite Hev, Hc, Hi, Hr, Hb.
    apply Z.eqb_neq in Hother. rewrite Hother. reflexivity. }
  cbn [type conversation text from label option_map account_id].
  repeat (split; [reflexivity|]).
  intros logic w0 V G. unfold processActivity.
  rewrite (bind_Return _ _ _ _ _ V). cbn [negb]. unfold receive.
  rewrite (bind_Return _ _ _ _ _ G). rewrite Hh.
  cbn [string_in existsb String.eqb Ascii.eqb Bool.eqb orb].
  unfold bind at 1. unfold issue_comment_activity.
  rewrite Hev, Hc, Hi, Hr, Hb.
  apply Z.eqb_neq in Hother. rewrite Hother. reflexivity.
Qed.

(** alice says hello. *)
Lemma C3_witness :
  let req := Sample.issue_comment_request [] None
               (Sample.comment_event Sample.alice "hello") in
  let w := Sample.world
             (Sample.adapter None (Some "tok") (Some Sample.mybot))
             Sample.accepting in
  exists a,
    issue_comment_activity "issue_comment" (req_body req) Sample.mybot w
    = (Return (Some a), w)
    /\ type a = Message
    /\ conversation a
       = Some {| isGroup := Some true;
                 conversationType := Some "issue_comment"%string;
                 conversation_id := Some (Num 42);
                 repo := Some "o/r"%string |}
    /\ text a = Some "hello"%string
    /\ option_map account_id (from a) = Some (Some "alice"%string)
    /\ label a = Some "issue_comment"%string
    /\ forall logic w0,
         verifySignature req w0 = (Return true, w0) ->
         getBotUserFromAPI w0 = (Return Sample.mybot, w) ->
         processActivity req logic w0
         = (context <- run_turn a logic ;; send_response context) w.
Proof.
  intros req w.
  apply (C3_issue_comment_activity req
           (Sample.comment_event Sample.alice "hello")
           {| comment_id := 99; comment_body := "hello";
              updated_at := "2019-05-15T15:20:33Z";
              comment_user := Sample.alice |}
           Sample.mybot w);
    try reflexivity.
  discriminate.
Defined.

Example hello_reaches_the_bot_logic :
  let w := Sample.world
             (Sample.adapter None (Some "tok") (Some Sample.mybot))
             Sample.accepting in
  exists w' a,
    processActivity
      (Sample.issue_comment_request [] None
         (Sample.comment_event Sample.alice "hello"))
      Sample.quiet w
    = (Return tt, w')
    /\ dispatched (trace w') = [a]
    /\ type a = Message /\ text a = Some "hello"%string
    /\ tag a = None
    /\ trace w' = [run_logic a; res_status (Some 200); res_end].
Proof. eexists. eexists. vm_compute. repeat split. Qed.


(** * Further properties *)

(** ** The signature check, case by case *)

(** X1. With a secret configured and a body that is not empty, the
    request whose signature header is "sha1=" and the HMAC-SHA1 of the
    body under the secret, in hexadecimal, passes the check, and the
    response is not touched. *)
Theorem valid_signature_is_accepted (w : World) (req : Request)
  (secret body : string) :
  webhookSecret (options (this w)) = Some secret -> secret <> "" ->
  rawBody req = Some body -> body <> "" ->
  header req "X-Hub-Signature" = Some (signature secret body) ->
  verifySignature req w = (Return true, w).
Proof.
  intros Hs Hse Hb Hbe Hh.
  rewrite (verifySignature_compare w req secret body Hs Hse Hb Hbe), Hh.
  now rewrite timingSafeEqual_refl.
Qed.

Lemma valid_signature_is_accepted_witness :
  let w := Sample.world (Sample.adapter (Some "s3cret") (Some "tok") None)
             Sample.accepting in
  verifySignature
    (Cases.signed "s3cret" "{}" (signature "s3cret" "{}")
       (Sample.comment_event Sample.alice "hello")) w
  = (Return true, w).
Proof.
  intros w.
  apply (valid_signature_is_accepted w _ "s3cret" "{}");
    [reflexivity | discriminate | reflexivity | discriminate | reflexivity].
Defined.

(** X2. Every other signature header of the same length, 45 bytes, is
    rejected: the check sets the status 401 and returns [false]. *)
Theorem other_signature_is_rejected (w : World) (req : Request)
  (secret body h : string) :
  webhookSecret (options (this w)) = Some secret -> secret <> "" ->
  rawBody req = Some body -> body <> "" ->
  header req "X-Hub-Signature" = Some h ->
  h <> signature secret body ->
  List.length (Buffer_from h) = 45%nat ->
  verifySignature req w = (Return false, log [res_status (Some 401)] w).
Proof.
  intros Hs Hse Hb Hbe Hh Hne Hl.
  rewrite (verifySignature_compare w req secret body Hs Hse Hb Hbe), Hh.
  rewrite timingSafeEqual_neq; [reflexivity | |].
  - now rewrite signature_length.
  - intros E. apply Hne. now apply Buffer_from_inj.
Qed.

Lemma other_signature_is_rejected_witness :
  let w := Sample.world (Sample.adapter (Some "s3cret") (Some "tok") None)
             Sample.accepting in
  verifySignature
    (Cases.signed "s3cret" "{}"
       "sha1=0000000000000000000000000000000000000000"
       (Sample.comment_event Sample.alice "hello")) w
  = (Return false, log [res_status (Some 401)] w).
Proof.
  intros w.
  apply (other_signature_is_rejected w _ "s3cret" "{}"
           "sha1=0000000000000000000000000000000000000000");
    [reflexivity | discriminate | reflexivity | discriminate | reflexivity
    | vm_compute; discriminate | reflexivity].
Defined.

(** X3. With a secret and a body, a request without the signature header
    makes [verifySignature] raise a [TypeError]: [Buffer.from] is called
    on [undefined]. *)
Lemma verifySignature_missing_header (w : World) (req : Request)
  (secret body : string) :
  webhookSecret (options (this w)) = Some secret -> secret <> "" ->
  rawBody req = Some body -> body <> "" ->
  header req "X-Hub-Signature" = None ->
  verifySignature req w
  = (Throw (TypeError "The first argument must be of type string"), w).
Proof.
  intros Hs Hse Hb Hbe Hh.
  rewrite (verifySignature_compare w req secret body Hs Hse Hb Hbe), Hh.
  reflexivity.
Qed.

Lemma verifySignature_missing_header_witness :
  let w := Sample.world (Sample.adapter (Some "s3cret") (Some "tok") None)
             Sample.accepting in
  verifySignature
    (Sample.issue_comment_request [] (Some "{}")
       (Sample.comment_event Sample.alice "hello")) w
  = (Throw (TypeError "The first argument must be of type string"), w).
Proof.
  intros w.
  apply (verifySignature_missing_header w _ "s3cret" "{}");
    [reflexivity | discriminate | reflexivity | discriminate | reflexivity].
Defined.

(** X4. A request whose signature is rejected gets the status 401 and
    nothing else: no request to the API, no turn of the bot logic, and
    the response is not ended. *)
Lemma processActivity_rejected (w : World) (req : Request)
  (logic : TurnContext -> M TurnContext) (secret body h : string) :
  webhookSecret (options (this w)) = Some secret -> secret <> "" ->
  rawBody req = Some body -> body <> "" ->
  header req "X-Hub-Signature" = Some h ->
  h <> signature secret body ->
  List.length (Buffer_from h) = 45%nat ->
  processActivity req logic w = (Return tt, log [res_status (Some 401)] w).
Proof.
  intros Hs Hse Hb Hbe Hh Hne Hl. unfold processActivity.
  assert (V : verifySignature req w
              = (Return false, log [res_status (Some 401)] w)).
  { rewrite (verifySignature_compare w req secret body Hs Hse Hb Hbe), Hh.
    rewrite timingSafeEqual_neq; [reflexivity | |].
    - now rewrite signature_length.
    - intros E. apply Hne. now apply Buffer_from_inj. }
  rewrite (bind_Return _ _ _ _ _ V). reflexivity.
Qed.

Lemma processActivity_rejected_witness :
  let w := Sample.world (Sample.adapter (Some "s3cret") (Some "tok") None)
             Sample.accepting in
  processActivity
    (Cases.signed "s3cret" "{}"
       "sha1=0000000000000000000000000000000000000000"
       (Sample.comment_event Sample.alice "hello")) Sample.quiet w
  = (Return tt, log [res_status (Some 401)] w).
Proof.
  intros w.
  apply (processActivity_rejected w _ _ "s3cret" "{}"
           "sha1=0000000000000000000000000000000000000000");
    [reflexivity | discriminate | reflexivity | discriminate | reflexivity
    | vm_compute; discriminate | reflexivity].
Defined.


(** ** The client and the identity of the bot *)

(** X5. The identity is fetched once: a call of [getBotUserFromAPI] that
    returns leaves the identity cached, it has sent one request if the
    identity was not cached before and none if it was, and the next call
    returns the same identity without touching anything. *)
Lemma getBotUserFromAPI_caches (w : World) (i : Identity) (w1 : World) :
  getBotUserFromAPI w = (Return i, w1) ->
  identity (this w1) = Some i
  /\ getBotUserFromAPI w1 = (Return i, w1)
  /\ requests (trace w1)
     = requests (trace w)
         ++ match identity (this w) with
            | Some _ => []
            | None => [users_getAuthenticated]
            end.
Proof.
  unfold getBotUserFromAPI at 1. unfold bind at 1, get_this at 1.
  destruct (identity (this w)) as [i0|] eqn:Hi.
  - intros [= <- <-]. rewrite app_nil_r.
    split; [exact Hi|]. split; [now apply getBotUserFromAPI_cached|reflexivity].
  - unfold bind at 1. rewrite getAPI_spec.
    destruct (client_for (this w) _) as [o|]; [|discriminate].
    set (w0 := match octokit (this w) with
               | Some _ => w
               | None => log [construct o] w
               end).
    assert (Hreq : requests (trace w0) = requests (trace w)).
    { subst w0. destruct (octokit (this w)); [reflexivity|].
      cbn [log trace]. rewrite requests_app. cbn. now rewrite app_nil_r. }
    clearbody w0.
    cbv [bind call emit ret await throw].
    destruct (server w0 _ o users_getAuthenticated) as [[st d]|e];
      [|discriminate].
    cbn [data]. destruct (data_login d) as [l|]; [|discriminate].
    destruct (truthy (Some l)); [|discriminate].
    cbv [set_identity]. intros [= <- <-]. cbn [this identity log trace].
    split; [reflexivity|]. split.
    + apply getBotUserFromAPI_cached. reflexivity.
    + rewrite requests_app, Hreq. reflexivity.
Qed.

Lemma getBotUserFromAPI_caches_witness :
  exists w1,
    getBotUserFromAPI
      (Sample.world (Sample.adapter None (Some "tok") None) Sample.accepting)
    = (Return Sample.mybot, w1)
    /\ identity (this w1) = Some Sample.mybot
    /\ getBotUserFromAPI w1 = (Return Sample.mybot, w1)
    /\ requests (trace w1) = [] ++ [users_getAuthenticated].
Proof.
  eexists. split; [vm_compute; reflexivity|].
  apply (getBotUserFromAPI_caches
           (Sample.world (Sample.adapter None (Some "tok") None)
              Sample.accepting)).
  vm_compute. reflexivity.
Defined.

(** X6. A lookup that fails caches nothing: the identity was unset and
    is still unset, so the next call starts over. *)
Lemma getBotUserFromAPI_failure (w : World) (e : exn) (w1 : World) :
  getBotUserFromAPI w = (Throw e, w1) ->
  identity (this w) = None /\ identity (this w1) = None.
Proof.
  unfold getBotUserFromAPI at 1. unfold bind at 1, get_this at 1.
  destruct (identity (this w)) as [i0|] eqn:Hi; [discriminate|].
  unfold bind at 1. rewrite getAPI_spec.
  destruct (client_for (this w) _) as [o|].
  2:{ intros [= _ <-]. now split. }
  set (w0 := match octokit (this w) with
             | Some _ => w
             | None => log [construct o] w
             end).
  assert (H0 : identity (this w0) = None).
  { subst w0. destruct (octokit (this w)); exact Hi. }
  clearbody w0.
  cbv [bind call emit ret await throw].
  destruct (server w0 _ o users_getAuthenticated) as [[st d]|e0].
  2:{ intros [= _ <-]. now split. }
  cbn [data]. destruct (data_login d) as [l|].
  2:{ intros [= _ <-]. now split. }
  destruct (truthy (Some l)); [discriminate|].
  intros [= _ <-]. now split.
Qed.

Lemma getBotUserFromAPI_failure_witness :
  let w := Sample.world (Sample.adapter None (Some "tok") None)
             (Cases.anonymous None) in
  identity (this w) = None
  /\ identity (this (snd (getBotUserFromAPI w))) = None.
Proof.
  intros w.
  apply (getBotUserFromAPI_failure w (Error "Not authenticated")).
  vm_compute. reflexivity.
Defined.

(** X7. An answer without a login, or with an empty one, is "Not
    authenticated": the request was sent, the identity stays unset. *)
Lemma getBotUserFromAPI_not_authenticated (w : World) (o : Octokit)
  (w1 : World) (r : OctokitResponse) :
  identity (this w) = None ->
  getAPI w = (Return o, w1) ->
  server w1 (List.length (requests (trace w1))) o users_getAuthenticated
  = Resolved r ->
  truthy (data_login (data r)) = false ->
  getBotUserFromAPI w
  = (Throw (Error "Not authenticated"),
     log [request o users_getAuthenticated] w1).
Proof.
  intros Hi G Hs Hl.
  unfold getBotUserFromAPI. unfold bind at 1, get_this at 1. rewrite Hi.
  rewrite (bind_Return _ _ _ _ _ G).
  cbv [bind call emit ret await throw]. rewrite Hs.
  destruct (data_login (data r)) as [l|]; [|reflexivity].
  rewrite Hl. reflexivity.
Qed.

Lemma getBotUserFromAPI_not_authenticated_witness :
  let o := {| instance := 0; auth := "tok"; userAgent := "Botkit" |} in
  let w := Sample.world (Sample.adapter None (Some "tok") None)
             (Cases.anonymous (Some "")) in
  getBotUserFromAPI w
  = (Throw (Error "Not authenticated"),
     log [request o users_getAuthenticated] (log [construct o] w)).
Proof.
  intros o w.
  apply (getBotUserFromAPI_not_authenticated w o (log [construct o] w)
           {| status := 200;
              data := {| data_id := 7; data_login := Some "" |} |});
    reflexivity.
Defined.

(** X8. [processActivity] asks for the identity of the bot before it
    looks at the event: on an adapter without a token and without a
    cached identity, every webhook that passes the signature check
    fails with "Missing api token." and the bot logic never runs. *)
Lemma processActivity_without_token (w : World) (req : Request)
  (logic : TurnContext -> M TurnContext) :
  verifySignature req w = (Return true, w) ->
  identity (this w) = None -> octokit (this w) = None ->
  truthy (githubToken (options (this w))) = false ->
  processActivity req logic w = (Throw (Error "Missing api token."), w).
Proof.
  intros V Hi Ho Ht. unfold processActivity.
  rewrite (bind_Return _ _ _ _ _ V). cbn [negb]. unfold receive.
  apply bind_Throw. unfold getBotUserFromAPI.
  unfold bind at 1, get_this at 1. rewrite Hi.
  apply bind_Throw. now apply getAPI_missing_token.
Qed.

Lemma processActivity_without_token_witness :
  let w := Sample.world (Sample.adapter None None None) Sample.accepting in
  processActivity
    (Cases.event_request "push" "delivery-1"
       (Sample.pull_request_event None)) Sample.quiet w
  = (Throw (Error "Missing api token."), w).
Proof.
  intros w. apply processActivity_without_token; reflexivity.
Defined.


(** ** What no method of the adapter changes *)

Lemma later_refl w : later w w.
Proof.
  repeat split; auto. exists []. now rewrite app_nil_r.
Qed.

Lemma later_trans w1 w2 w3 : later w1 w2 -> later w2 w3 -> later w1 w3.
Proof.
  intros (O1 & C1 & M1 & S1 & I1 & es1 & T1) (O2 & C2 & M2 & S2 & I2 & es2 & T2).
  repeat split; try congruence; auto.
  exists (es1 ++ es2). rewrite T2, T1. now rewrite app_assoc.
Qed.

Lemma later_log es w : later w (log es w).
Proof. repeat split; auto. now exists es. Qed.

Lemma keeps_ret {A : Type} (a : A) : keeps (ret a).
Proof. intros w r w' [= _ <-]. apply later_refl. Qed.

Lemma keeps_throw {A : Type} (e : exn) : keeps (@throw World A e).
Proof. intros w r w' [= _ <-]. apply later_refl. Qed.

Lemma keeps_lift {A : Type} (c : completion A) : keeps (lift c).
Proof. intros w r w' [= _ <-]. apply later_refl. Qed.

Lemma keeps_bind {A B : Type} (m : M A) (k : A -> M B) :
  keeps m -> (forall a, keeps (k a)) -> keeps (bind m k).
Proof.
  intros Hm Hk w r w'. unfold bind.
  destruct (m w) as [[a|e] w1] eqn:E; intros H.
  - eapply later_trans; [eapply Hm; eassumption | eapply Hk; eassumption].
  - injection H as _ <-. eapply Hm; eassumption.
Qed.

Lemma keeps_try_catch {A : Type} (m : M A) (h : exn -> M A) :
  keeps m -> (forall e, keeps (h e)) -> keeps (try_catch m h).
Proof.
  intros Hm Hh w r w'. unfold try_catch.
  destruct (m w) as [[a|e] w1] eqn:E; intros H.
  - injection H as _ <-. eapply Hm; eassumption.
  - eapply later_trans; [eapply Hm; eassumption | eapply Hh; eassumption].
Qed.

Lemma keeps_emit e : keeps (emit e).
Proof. intros w r w' [= _ <-]. apply later_log. Qed.

Lemma keeps_get_this : keeps get_this.
Proof. intros w r w' [= _ <-]. apply later_refl. Qed.

Lemma keeps_await p : keeps (await p).
Proof. destruct p; [apply keeps_ret|apply keeps_throw]. Qed.

Lemma keeps_call o c : keeps (call o c).
Proof. intros w r w' [= _ <-]. apply later_log. Qed.

Lemma keeps_new_Octokit t agent : keeps (new_Octokit t agent).
Proof. intros w r w' [= _ <-]. apply later_log. Qed.

Lemma keeps_target_of m : keeps (target_of m).
Proof.
  unfold target_of. destruct (target m); [apply keeps_ret|apply keeps_throw].
Qed.

Create HintDb keeps.
#[local] Hint Resolve keeps_ret keeps_throw keeps_lift keeps_emit
  keeps_get_this keeps_await keeps_call keeps_new_Octokit keeps_target_of
  : keeps.

Ltac keeps_step :=
  first
    [ solve [auto with keeps]
    | apply keeps_bind; [|intros ?]
    | apply keeps_try_catch; [|intros ?]
    | progress cbv zeta
    | match goal with
      | |- keeps (match ?x with _ => _ end) => destruct x
      | |- keeps (if ?x then _ else _) => destruct x
      end ].

Lemma keeps_getAPI : keeps getAPI.
Proof. unfold getAPI. repeat keeps_step. Qed.

Lemma keeps_getBotUserFromAPI : keeps getBotUserFromAPI.
Proof.
  intros w r w' H.
  assert (L : forall w0, later w w0 ->
              identity (this w) = None -> forall i,
              later w (snd (set_identity i w0))).
  { intros w0 (O & C & Mi & S & I & es & T) Hn i.
    cbn. repeat split; auto. intros j Hj. congruence. now exists es. }
  revert H. unfold getBotUserFromAPI. unfold bind at 1, get_this at 1.
  destruct (identity (this w)) as [i0|] eqn:Hi.
  { intros [= _ <-]. apply later_refl. }
  unfold bind at 1.
  destruct (getAPI w) as [[o|e] w1] eqn:G;
    [|intros [= _ <-]; now apply (keeps_getAPI _ _ _ G)].
  pose proof (keeps_getAPI _ _ _ G) as L1.
  cbv [bind call emit ret await throw].
  set (w2 := log [request o users_getAuthenticated] w1).
  assert (L2 : later w w2)
    by (eapply later_trans; [exact L1|apply later_log]).
  destruct (server w1 _ o users_getAuthenticated) as [[st d]|e];
    [|intros [= _ <-]; exact L2].
  cbn [data]. destruct (data_login d) as [l|];
    [|intros [= _ <-]; exact L2].
  destruct (truthy (Some l)); [|intros [= _ <-]; exact L2].
  intros [= _ <-]. apply (L w2 L2 eq_refl).
Qed.

Lemma keeps_verifySignature req : keeps (verifySignature req).
Proof. unfold verifySignature. repeat keeps_step. Qed.

#[local] Hint Resolve keeps_getAPI keeps_getBotUserFromAPI : keeps.

Lemma keeps_sendActivity a responses : keeps (sendActivity a responses).
Proof. unfold sendActivity. repeat keeps_step. Qed.

Lemma keeps_sendActivities_from activities :
  forall responses, keeps (sendActivities_from activities responses).
Proof.
  induction activities as [|a rest IH]; intros responses;
    cbn [sendActivities_from].
  - apply keeps_ret.
  - apply keeps_bind; [apply keeps_sendActivity|exact IH].
Qed.

Lemma keeps_updateActivity context a : keeps (updateActivity context a).
Proof. unfold updateActivity. repeat keeps_step. Qed.

Lemma keeps_deleteActivity context reference :
  keeps (deleteActivity context reference).
Proof. unfold deleteActivity. repeat keeps_step. Qed.

Lemma keeps_spawn : keeps spawn.
Proof. unfold spawn. repeat keeps_step. Qed.

(** X9. Whatever they return or raise, the methods of the adapter leave
    the options, the [octokit] field, the bound middlewares and the
    server as they were, never drop or replace a cached identity, and
    only add to the trace of effects. *)
Theorem adapter_methods_keep_the_configuration :
  keeps getAPI /\ keeps getBotUserFromAPI
  /\ (forall req, keeps (verifySignature req))
  /\ (forall context activities, keeps (sendActivities context activities))
  /\ (forall context a, keeps (updateActivity context a))
  /\ (forall context reference, keeps (deleteActivity context reference))
  /\ keeps spawn.
Proof.
  split; [apply keeps_getAPI|].
  split; [apply keeps_getBotUserFromAPI|].
  split; [apply keeps_verifySignature|].
  split; [intros context activities; apply keeps_sendActivities_from|].
  split; [apply keeps_updateActivity|].
  split; [apply keeps_deleteActivity|apply keeps_spawn].
Qed.


(** ** The outbound mapping *)

Lemma split_has_no s : has_no "/" s = true -> split "/" s = [s].
Proof.
  unfold has_no. induction s as [|c s IH]; [reflexivity|].
  cbn [list_ascii_of_string forallb split]. intros H.
  apply andb_true_iff in H. destruct H as [Hc Hs].
  apply negb_true_iff in Hc. rewrite Hc, (IH Hs). reflexivity.
Qed.

Lemma split_first o r :
  has_no "/" o = true ->
  split "/" (o ++ String "/" r)%string = o :: split "/" r.
Proof.
  unfold has_no. induction o as [|c o IH]; [reflexivity|].
  cbn [list_ascii_of_string forallb split append]. intros H.
  apply andb_true_iff in H. destruct H as [Hc Ho].
  apply negb_true_iff in Hc. rewrite Hc, (IH Ho). reflexivity.
Qed.

Lemma activityToGithub_target (a : Activity) (c : ConversationAccount)
  (o r : string) :
  conversation a = Some c ->
  repo c = Some (o ++ "/" ++ r)%string ->
  has_no "/" o = true -> has_no "/" r = true ->
  activityToGithub a
  = Return {| activityId := id a;
              target := Some {| target_type := conversationType c;
                                target_id := conversation_id c;
                                owner := Some o;
                                target_repo := Some r |};
              message_text := if truthy (text a) then text a else None |}.
Proof.
  intros Hc Hr Ho Hn. unfold activityToGithub. rewrite Hc, Hr.
  change (o ++ "/" ++ r)%string with (o ++ String "/" r)%string.
  rewrite (split_first o r Ho), (split_has_no r Hn). reflexivity.
Qed.

(** X11. A conversation whose [repo] is an owner, a slash and a name
    maps to a target with that owner and that name; the type and the id
    of the target are those of the conversation, the id of the activity
    is kept, and an empty text is left out. *)
Theorem activityToGithub_owner_and_repo (a : Activity)
  (c : ConversationAccount) (o r : string) :
  conversation a = Some c ->
  repo c = Some (o ++ "/" ++ r)%string ->
  has_no "/" o = true -> has_no "/" r = true ->
  activityToGithub a
  = Return {| activityId := id a;
              target := Some {| target_type := conversationType c;
                                target_id := conversation_id c;
                                owner := Some o;
                                target_repo := Some r |};
              message_text := if truthy (text a) then text a else None |}.
Proof.
  intros Hc Hr Ho Hn. unfold activityToGithub. rewrite Hc, Hr.
  change (o ++ "/" ++ r)%string with (o ++ String "/" r)%string.
  rewrite (split_first o r Ho), (split_has_no r Hn). reflexivity.
Qed.

Lemma activityToGithub_owner_and_repo_witness :
  activityToGithub (Sample.message 99 "hello")
  = Return {| activityId := Some (Num 99);
              target := Some {| target_type := Some "issue_comment"%string;
                                target_id := Some (Num 42);
                                owner := Some "o"%string;
                                target_repo := Some "r"%string |};
              message_text := Some "hello"%string |}.
Proof.
  apply (activityToGithub_owner_and_repo (Sample.message 99 "hello")
           Sample.thread "o" "r"); reflexivity.
Defined.

(** X12. A [repo] without a slash gives a target whose owner is the
    whole string and whose repository name is undefined; the mapping
    itself does not fail. *)
Theorem activityToGithub_without_slash (a : Activity)
  (c : ConversationAccount) (s : string) :
  conversation a = Some c -> repo c = Some s -> has_no "/" s = true ->
  activityToGithub a
  = Return {| activityId := id a;
              target := Some {| target_type := conversationType c;
                                target_id := conversation_id c;
                                owner := Some s;
                                target_repo := None |};
              message_text := if truthy (text a) then text a else None |}.
Proof.
  intros Hc Hr Hs. unfold activityToGithub. rewrite Hc, Hr.
  rewrite (split_has_no s Hs). reflexivity.
Qed.

Lemma activityToGithub_without_slash_witness :
  let c := {| isGroup := Some true;
              conversationType := Some "issues"%string;
              conversation_id := Some (Num 1);
              repo := Some "solo"%string |} in
  let a := set_conversation c (Sample.message 5 "") in
  activityToGithub a
  = Return {| activityId := Some (Num 5);
              target := Some {| target_type := Some "issues"%string;
                                target_id := Some (Num 1);
                                owner := Some "solo"%string;
                                target_repo := None |};
              message_text := None |}.
Proof.
  intros c a. apply (activityToGithub_without_slash a c "solo"); reflexivity.
Defined.

(** ** Updating and deleting, in general *)

(** X13. [updateActivity] raises exactly when the id of the activity is
    missing, zero or empty, or its conversation is missing; then nothing
    else happens. In every other case it returns normally, whatever the
    mapping, the client and the server do. *)
Theorem updateActivity_guard (context : TurnContext) (a : Activity)
  (w : World) :
  if truthy_ident (id a) && is_Some (conversation a) then
    exists w', updateActivity context a w = (Return tt, w')
  else
    updateActivity context a w
    = (Throw (Error "Cannot update activity: activity is missing id"), w).
Proof.
  destruct (truthy_ident (id a)) eqn:Hid;
    destruct (conversation a) as [c|] eqn:Hc; cbn [is_Some andb].
  - apply updateActivity_returns; [exact Hid|congruence].
  - unfold updateActivity. now rewrite Hid, Hc.
  - unfold updateActivity. now rewrite Hid.
  - unfold updateActivity. now rewrite Hid.
Qed.

(** X14. For an activity that maps to an [issue_comment] target,
    [updateActivity] sends one [issues.updateComment] for the comment
    whose id is the id of the activity, with the text of the activity as
    the body, and logs an error when the request is rejected or
    answered with a status of 300 or more. *)
Theorem updateActivity_sends (context : TurnContext) (a : Activity)
  (w : World) (m : GithubMessage) (t : GithubTarget) (o : Octokit)
  (w1 : World) :
  truthy_ident (id a) = true ->
  activityToGithub a = Return m -> target m = Some t ->
  target_type t = Some "issue_comment"%string ->
  getAPI w = (Return o, w1) ->
  let c := issues_updateComment (owner t) (target_repo t) (id a)
             (if truthy (text a) then text a else None) in
  let p := server w1 (List.length (requests (trace w1))) o c in
  updateActivity context a w = (Return tt, log (update_effects o c p) w1).
Proof.
  intros Hid Hm Ht Hty G. cbv zeta.
  assert (Hc : exists c, conversation a = Some c).
  { unfold activityToGithub in Hm.
    destruct (conversation a) as [c|]; [eauto|].
    injection Hm as <-. discriminate Ht. }
  destruct Hc as [c0 Hc].
  assert (Hfields : activityId m = id a
                    /\ message_text m
                       = if truthy (text a) then text a else None).
  { unfold activityToGithub in Hm. rewrite Hc in Hm.
    destruct (repo c0); [|discriminate]. injection Hm as <-. now split. }
  destruct Hfields as [<- <-].
  unfold updateActivity. rewrite Hid, Hc.
  unfold try_catch. unfold lift at 1. rewrite Hm. unfold bind at 1.
  rewrite (bind_Return _ _ _ _ _ G).
  unfold target_of. rewrite Ht. unfold bind at 1, ret at 1.
  unfold string_in. rewrite Hty.
  cbn [existsb String.eqb Ascii.eqb Bool.eqb orb].
  cbv [bind call emit ret await throw status_below_300 update_effects].
  destruct (server w1 _ o _) as [r|e].
  - destruct (status r <? 300); cbn [negb]; now rewrite ?log_log.
  - now rewrite ?log_log.
Qed.

Lemma updateActivity_sends_witness :
  let w := Sample.world (Sample.adapter None (Some "tok") None)
             Sample.accepting in
  let o := {| instance := 0; auth := "tok"; userAgent := "Botkit" |} in
  updateActivity (Sample.turn (Sample.message 99 "hello"))
    (Sample.message 99 "edited") w
  = (Return tt,
     log [request o (issues_updateComment (Some "o") (Some "r")
                       (Some (Num 99)) (Some "edited"))%string;
          console_log] (log [construct o] w)).
Proof.
  intros w o.
  apply (updateActivity_sends (Sample.turn (Sample.message 99 "hello"))
           (Sample.message 99 "edited") w
           {| activityId := Some (Num 99);
              target := Some {| target_type := Some "issue_comment"%string;
                                target_id := Some (Num 42);
                                owner := Some "o"%string;
                                target_repo := Some "r"%string |};
              message_text := Some "edited"%string |}
           {| target_type := Some "issue_comment"%string;
              target_id := Some (Num 42);
              owner := Some "o"%string;
              target_repo := Some "r"%string |} o (log [construct o] w));
    reflexivity.
Defined.

(** X15. For any other target type [updateActivity] sends nothing: it
    logs the error and returns. *)
Theorem updateActivity_unsupported (context : TurnContext) (a : Activity)
  (w : World) (m : GithubMessage) (t : GithubTarget) (o : Octokit)
  (w1 : World) :
  truthy_ident (id a) = true ->
  activityToGithub a = Return m -> target m = Some t ->
  target_type t <> Some "issue_comment"%string ->
  getAPI w = (Return o, w1) ->
  updateActivity context a w
  = (Return tt, log [console_error "Error updating activity on Github:"] w1).
Proof.
  intros Hid Hm Ht Hty G.
  assert (Hc : exists c, conversation a = Some c).
  { unfold activityToGithub in Hm.
    destruct (conversation a) as [c|]; [eauto|].
    injection Hm as <-. discriminate Ht. }
  destruct Hc as [c0 Hc].
  unfold updateActivity. rewrite Hid, Hc.
  unfold try_catch. unfold lift at 1. rewrite Hm. unfold bind at 1.
  rewrite (bind_Return _ _ _ _ _ G).
  unfold target_of. rewrite Ht. unfold bind at 1, ret at 1.
  assert (E : string_in (target_type t) ["issue_comment"%string] = false).
  { unfold string_in. destruct (target_type t) as [x|]; [|reflexivity].
    cbn [existsb]. rewrite orb_false_r.
    destruct (String.eqb_spec x "issue_comment"); congruence. }
  rewrite E. reflexivity.
Qed.

Lemma updateActivity_unsupported_witness :
  let w := Sample.world (Sample.adapter None (Some "tok") None)
             Sample.accepting in
  let o := {| instance := 0; auth := "tok"; userAgent := "Botkit" |} in
  let c := {| isGroup := Some true;
              conversationType := Some "pull_request"%string;
              conversation_id := Some (Num 3);
              repo := Some "o/r"%string |} in
  let a := set_conversation c (Sample.message 99 "edited") in
  updateActivity (Sample.turn a) a w
  = (Return tt,
     log [console_error "Error updating activity on Github:"]
       (log [construct o] w)).
Proof.
  intros w o c a.
  apply (updateActivity_unsupported (Sample.turn a) a w
           {| activityId := Some (Num 99);
              target := Some {| target_type := Some "pull_request"%string;
                                target_id := Some (Num 3);
                                owner := Some "o"%string;
                                target_repo := Some "r"%string |};
              message_text := Some "edited"%string |}
           {| target_type := Some "pull_request"%string;
              target_id := Some (Num 3);
              owner := Some "o"%string;
              target_repo := Some "r"%string |} o (log [construct o] w));
    try reflexivity.
  discriminate.
Defined.


(** X16. When no client can be had, [deleteActivity] logs the error and
    raises it again. *)
Theorem deleteActivity_raises_again (context : TurnContext)
  (reference : ConversationReference) (w : World) (e : exn) (w1 : World) :
  truthy_ident (reference_activityId reference) = true ->
  reference_conversation reference <> None ->
  getAPI w = (Throw e, w1) ->
  deleteActivity context reference w
  = (Throw e, log [console_error "Error deleting activity"] w1).
Proof.
  intros Hid Hc G. unfold deleteActivity. rewrite Hid.
  destruct (reference_conversation reference); [|congruence].
  erewrite try_catch_Throw; [reflexivity|]. now apply bind_Throw.
Qed.

Lemma deleteActivity_raises_again_witness :
  let w := Sample.world (Sample.adapter None None None) Sample.accepting in
  deleteActivity (Sample.turn (Sample.message 99 "hello"))
    {| reference_activityId := Some (Num 99);
       reference_conversation := Some Sample.thread |} w
  = (Throw (Error "Missing api token."),
     log [console_error "Error deleting activity"] w).
Proof.
  intros w.
  apply (deleteActivity_raises_again
           (Sample.turn (Sample.message 99 "hello"))
           {| reference_activityId := Some (Num 99);
              reference_conversation := Some Sample.thread |} w);
    [reflexivity | discriminate | reflexivity].
Defined.

(** X17. [deleteActivity] raises at once, with nothing logged, exactly
    when the reference has no [activityId] (or a zero or empty one) or
    no conversation; otherwise it logs at least one line on the error
    console, whether the deletion works or not. *)
Theorem deleteActivity_guard (context : TurnContext)
  (reference : ConversationReference) (w : World) :
  if truthy_ident (reference_activityId reference)
     && is_Some (reference_conversation reference)
  then
    exists r w' es,
      deleteActivity context reference w = (r, w')
      /\ console_errors (trace w') = console_errors (trace w) ++ es
      /\ es <> []
  else
    deleteActivity context reference w
    = (Throw
         (Error "Cannot delete activity: reference is missing activityId"),
       w).
Proof.
  unfold deleteActivity.
  destruct (truthy_ident (reference_activityId reference));
    [|reflexivity].
  destruct (reference_conversation reference) as [c|]; [|reflexivity].
  cbn [is_Some andb]. unfold try_catch.
  destruct (getAPI w) as [[o|e] w1] eqn:G.
  2:{ rewrite (bind_Throw _ _ _ _ _ G).
      cbv [bind emit throw]. do 3 eexists. split; [reflexivity|].
      cbn [log trace]. rewrite console_errors_app.
      assert (E : console_errors (trace w1) = console_errors (trace w)).
      { revert G. rewrite getAPI_spec.
        destruct (client_for _ _); [discriminate|]. now intros [= _ <-]. }
      rewrite E. split; [reflexivity|discriminate]. }
  assert (E : console_errors (trace w1) = console_errors (trace w)).
  { revert G. rewrite getAPI_spec.
    destruct (client_for _ _); [|discriminate]. intros [= _ <-].
    destruct (octokit (this w)); [reflexivity|].
    cbn [log trace]. rewrite console_errors_app. cbn. now rewrite app_nil_r. }
  rewrite (bind_Return _ _ _ _ _ G). unfold lift at 1.
  destruct (activityToGithub (activity context)) as [m|e].
  2:{ cbv [bind emit throw]. do 3 eexists. split; [reflexivity|].
      cbn [log trace]. rewrite console_errors_app, E.
      split; [reflexivity|discriminate]. }
  unfold bind at 1. unfold target_of.
  destruct (target m) as [t|].
  2:{ cbv [bind emit throw]. do 3 eexists. split; [reflexivity|].
      cbn [log trace]. rewrite console_errors_app, E.
      split; [reflexivity|discriminate]. }
  unfold bind at 1, ret at 1.
  destruct (string_in (target_type t) _);
    cbv [bind call emit ret status_below_300 negb];
    (do 3 eexists; split; [reflexivity|]);
    cbn [log trace]; rewrite ?console_errors_app, E; cbn;
    rewrite <- ?app_assoc; (split; [reflexivity|discriminate]).
Qed.

(** ** Batches with other activities *)

(** X18. Activities that are not message-kind are passed over wherever
    they stand in a batch: the batch without them has the same effects
    and the same responses. *)
Theorem sendActivities_passes_over_other_kinds (context : TurnContext)
  (activities : list Activity) (w : World) :
  sendActivities context activities w
  = sendActivities context (filter is_message activities) w.
Proof.
  unfold sendActivities. generalize (@nil ResourceResponse) as responses.
  revert w. induction activities as [|a rest IH]; intros w responses;
    [reflexivity|].
  cbn [filter]. unfold is_message at 1.
  destruct (type a) eqn:Ht.
  - cbn [sendActivities_from]. unfold bind.
    destruct (sendActivity a responses w) as [[rs|e] w1]; [apply IH|reflexivity].
  - cbn [sendActivities_from]. unfold sendActivity at 1. rewrite Ht.
    unfold bind at 1, ret at 1. apply IH.
  - cbn [sendActivities_from]. unfold sendActivity at 1. rewrite Ht.
    unfold bind at 1, ret at 1. apply IH.
Qed.


(** ** The event-type tagger, in general *)

Section Respects.

Context {S : Type} (R : S -> S -> Prop).
Hypothesis R_refl : forall s, R s s.
Hypothesis R_trans : forall s1 s2 s3, R s1 s2 -> R s2 s3 -> R s1 s3.

Lemma respects_ret {A : Type} (a : A) : respects R (ret a).
Proof. intros s r s' [= _ <-]. apply R_refl. Qed.

Lemma respects_throw {A : Type} (e : exn) : respects R (@throw S A e).
Proof. intros s r s' [= _ <-]. apply R_refl. Qed.

Lemma respects_bind {A B : Type} (m : ST S A) (k : A -> ST S B) :
  respects R m -> (forall a, respects R (k a)) -> respects R (bind m k).
Proof.
  intros Hm Hk s r s'. unfold bind.
  destruct (m s) as [[a|e] s1] eqn:E; intros H.
  - eapply R_trans; [eapply Hm; eassumption | eapply Hk; eassumption].
  - injection H as _ <-. eapply Hm; eassumption.
Qed.

End Respects.

Lemma retagged_refl a : retagged a a.
Proof. repeat split. Qed.

Lemma retagged_trans a1 a2 a3 :
  retagged a1 a2 -> retagged a2 a3 -> retagged a1 a3.
Proof.
  unfold retagged. intros H1 H2.
  decompose [and] H1. decompose [and] H2. repeat split; congruence.
Qed.

Lemma only_tags_refl s : only_tags s s.
Proof. repeat split. Qed.

Lemma only_tags_trans s1 s2 s3 :
  only_tags s1 s2 -> only_tags s2 s3 -> only_tags s1 s3.
Proof.
  intros (W1 & T1 & A1) (W2 & T2 & A2).
  split; [congruence|]. split; [congruence|].
  eapply retagged_trans; eassumption.
Qed.

Lemma only_tags_get_activity : respects only_tags get_activity.
Proof. intros [c w] r s' [= _ <-]. apply only_tags_refl. Qed.

Lemma only_tags_set_botkitEventType t :
  respects only_tags (modify_activity (set_botkitEventType t)).
Proof.
  intros [c w] r s' [= _ <-]. split; [reflexivity|]. split; [reflexivity|].
  unfold retagged. cbn [fst activity set_botkitEventType type id timestamp
    channelId from recipient text label channelData].
  repeat split. destruct (channelData (activity c)); reflexivity.
Qed.

Lemma only_tags_assign_conversation f :
  respects only_tags (assign_conversation f).
Proof.
  unfold assign_conversation.
  apply (respects_bind _ only_tags_trans); [apply only_tags_get_activity|].
  intros a. destruct (conversation a) as [cv|].
  - intros [c w] r s' [= _ <-]. repeat split.
  - apply (respects_throw _ only_tags_refl).
Qed.

Ltac only_tags_step :=
  first
    [ apply only_tags_get_activity
    | apply only_tags_set_botkitEventType
    | apply only_tags_assign_conversation
    | apply (respects_ret _ only_tags_refl)
    | apply (respects_throw _ only_tags_refl)
    | apply (respects_bind _ only_tags_trans); [|intros ?]
    | match goal with
      | |- respects _ (match ?x with _ => _ end) => destruct x
      | |- respects _ (if ?x then _ else _) => destruct x
      end ].

Lemma EventType_respects : respects only_tags EventType_onTurn.
Proof. unfold EventType_onTurn. repeat only_tags_step. Qed.

(** X19. The event-type tagger writes the tag and the conversation, and
    nothing else: it sends no request and logs nothing, and the kind,
    the id, the text, the label, the sender and the rest of the payload
    of the activity are as before, also when it raises. *)
Theorem EventType_onTurn_only_tags (context : TurnContext) (w : World) :
  let '(r, (context', w')) := EventType_onTurn (context, w) in
  w' = w /\ turnState context' = turnState context
  /\ retagged (activity context) (activity context').
Proof.
  destruct (EventType_onTurn (context, w)) as [r [context' w']] eqn:E.
  exact (EventType_respects _ _ _ E).
Qed.

Lemma EventType_onTurn_skips (context : TurnContext) (w : World) :
  type (activity context) <> Event \/ truthy (label (activity context)) = false
  \/ channelData (activity context) = None
  \/ tag (activity context) = Some "slash_command"%string ->
  EventType_onTurn (context, w) = (Return tt, (context, w)).
Proof.
  intros H. unfold EventType_onTurn. unfold bind at 1, get_activity at 1.
  destruct (type (activity context)) eqn:Ht; try reflexivity.
  destruct (label (activity context)) as [l|] eqn:Hl; [|reflexivity].
  destruct (channelData (activity context)) as [cd|] eqn:Hc; [|reflexivity].
  destruct H as [H|[H|[H|H]]]; try congruence.
  - cbn [truthy] in H. cbn [truthy]. rewrite H. reflexivity.
  - unfold tag in H. rewrite Hc in H. rewrite H.
    cbn [neq_string String.eqb Ascii.eqb Bool.eqb negb].
    rewrite andb_false_r. reflexivity.
Qed.

(** X20. The tagger passes over every activity that is not event-kind,
    has no label or an empty one, has no payload, or is tagged
    [slash_command]. *)
Theorem EventType_onTurn_passes_over (context : TurnContext) (w : World) :
  type (activity context) <> Event \/ truthy (label (activity context)) = false
  \/ channelData (activity context) = None
  \/ tag (activity context) = Some "slash_command"%string ->
  EventType_onTurn (context, w) = (Return tt, (context, w)).
Proof.
  intros H. unfold EventType_onTurn. unfold bind at 1, get_activity at 1.
  destruct (type (activity context)) eqn:Ht; try reflexivity.
  destruct (label (activity context)) as [l|] eqn:Hl; [|reflexivity].
  destruct (channelData (activity context)) as [cd|] eqn:Hc; [|reflexivity].
  destruct H as [H|[H|[H|H]]]; try congruence.
  - cbn [truthy] in H. cbn [truthy]. rewrite H. reflexivity.
  - unfold tag in H. rewrite Hc in H. rewrite H.
    cbn [neq_string String.eqb Ascii.eqb Bool.eqb negb].
    rewrite andb_false_r. reflexivity.
Qed.

Lemma EventType_onTurn_passes_over_witness :
  let w := Sample.world (Sample.adapter None (Some "tok") None)
             Sample.accepting in
  let context := Sample.turn (Sample.message 99 "hello") in
  EventType_onTurn (context, w) = (Return tt, (context, w)).
Proof.
  intros w context. apply EventType_onTurn_passes_over.
  left. discriminate.
Defined.

(** X21. For an [issues] event whose payload carries the issue and the
    repository, the tagger fills the conversation with the group flag,
    the type [issues], the number of the issue and the full name of the
    repository. *)
Theorem EventType_onTurn_issues (context : TurnContext) (w : World)
  (cd : Payload) (c : ConversationAccount) (n : Z) (full_name : string) :
  type (activity context) = Event ->
  label (activity context) = Some "issues"%string ->
  channelData (activity context) = Some cd ->
  botkitEventType cd <> Some "slash_command"%string ->
  conversation (activity context) = Some c ->
  issue cd = Some n -> repository cd = Some full_name ->
  exists context',
    EventType_onTurn (context, w) = (Return tt, (context', w))
    /\ conversation (activity context')
       = Some {| isGroup := Some true;
                 conversationType := Some "issues"%string;
                 conversation_id := Some (Num n);
                 repo := Some full_name |}
    /\ tag (activity context')
       = Some (if truthy (action cd)
               then ("issues_" ++ match action cd with
                                  | Some act => act
                                  | None => ""
                                  end)%string
               else "issues"%string).
Proof.
  intros Ht Hl Hcd Hs Hc Hi Hr. destruct context as [a ts].
  cbn [activity] in *.
  unfold EventType_onTurn. unfold bind at 1, get_activity at 1.
  cbn [activity]. rewrite Ht, Hl, Hcd, (neq_string_true _ _ Hs).
  change (truthy (Some "issues"%string)) with true. cbn [andb].
  change ("issues" =? "pull_request")%string with false.
  change ("issues" =? "issues")%string with true. cbv iota.
  rewrite Hi, Hr.
  destruct (action cd) as [act|] eqn:Ha;
    [destruct (truthy (Some act)) eqn:Tr|];
    (eexists; split;
     [ cbv [bind ret throw assign_conversation get_activity modify_activity];
       cbn [activity set_botkitEventType conversation set_conversation
              turnState];
       rewrite Hc; reflexivity
     | unfold tag;
       cbn [activity set_conversation set_botkitEventType channelData
              conversation];
       rewrite Hcd; cbn [option_map botkitEventType];
       rewrite ?Tr; split; reflexivity ]).
Qed.

Lemma EventType_onTurn_issues_witness :
  let w := Sample.world (Sample.adapter None (Some "tok") None)
             Sample.accepting in
  let context :=
    Sample.turn (Sample.event "issues" (Cases.issues_event (Some "opened"))) in
  exists context',
    EventType_onTurn (context, w) = (Return tt, (context', w))
    /\ conversation (activity context')
       = Some {| isGroup := Some true;
                 conversationType := Some "issues"%string;
                 conversation_id := Some (Num 42);
                 repo := Some "o/r"%string |}
    /\ tag (activity context') = Some "issues_opened"%string.
Proof.
  intros w context.
  apply (EventType_onTurn_issues context w (Cases.issues_event (Some "opened"))
           {| isGroup := None; conversationType := None;
              conversation_id := Some (Str "delivery-1"); repo := None |}
           42 "o/r");
    try reflexivity.
  discriminate.
Defined.


(** ** The two middlewares together *)

Lemma strip_mention_computes s :
  exists s', remove_all ["^\s+"; "^:\s+"; "^\s+"]%string s = ret s'.
Proof. eexists. reflexivity. Qed.

Lemma strip_slash_computes s :
  exists s', remove_all ["^\/"]%string s = ret s'.
Proof. eexists. reflexivity. Qed.

Lemma MessageType_onTurn_skips (context : TurnContext) (w : World) :
  type (activity context) <> Message
  \/ channelData (activity context) = None ->
  MessageType_onTurn (context, w) = (Return tt, (context, w)).
Proof.
  intros H. unfold MessageType_onTurn. unfold bind at 1, get_activity at 1.
  destruct (type (activity context)) eqn:Ht.
  - destruct H as [H|H]; [congruence|]. rewrite H. reflexivity.
  - reflexivity.
  - reflexivity.
Qed.

Lemma MessageType_onTurn_output (context : TurnContext) (w : World)
  u c1 w1 :
  MessageType_onTurn (context, w) = (Return u, (c1, w1)) ->
  type (activity c1) = type (activity context)
  \/ tag (activity c1) = Some "slash_command"%string.
Proof.
  unfold MessageType_onTurn. unfold bind at 1, get_activity at 1.
  destruct (type (activity context)) eqn:Ht;
    [|intros [= _ <- _]; now left|intros [= _ <- _]; now left].
  destruct (channelData (activity context)) as [cd|] eqn:Hcd;
    [|intros [= _ <- _]; now left].
  cbn [is_Some]. unfold bind at 1. unfold in_world at 1.
  destruct (getBotUserFromAPI w) as [[bot|e] w0]; [|discriminate].
  unfold new_RegExp at 1.
  destruct (RegExp.compile _ _) as [mention|]; [|discriminate].
  unfold bind at 1, ret at 1. unfold new_RegExp at 1.
  destruct (RegExp.compile _ _) as [direct_mention|]; [|discriminate].
  unfold bind at 1, ret at 1.
  change (new_RegExp_literal "^\/\w+" "i")
    with (@ret Turn _
            {| RegExp.anchored := true;
               RegExp.pieces :=
                 [{| RegExp.what := RegExp.Lit "/"; RegExp.plus := false |};
                  {| RegExp.what := RegExp.Lit "w"; RegExp.plus := true |}];
               RegExp.ignoreCase := true |}).
  unfold bind at 1, ret at 1.
  destruct (_ && text_matches direct_mention _).
  { match goal with |- context [remove_all ?l ?s] =>
      destruct (strip_mention_computes s) as [s' ->] end.
    cbv [bind ret modify_activity]. intros [= _ <- _].
    left. cbn. now rewrite Ht. }
  destruct (_ && text_matches mention _).
  { cbv [bind ret modify_activity]. intros [= _ <- _].
    left. cbn. now rewrite Ht. }
  destruct (text_matches _ _).
  { match goal with |- context [remove_all ?l ?s] =>
      destruct (strip_slash_computes s) as [s' ->] end.
    cbv [bind ret modify_activity]. intros [= _ <- _].
    right. unfold tag. cbn. rewrite Hcd. reflexivity. }
  intros [= _ <- _]. left. now rewrite Ht.
Qed.

(** X22. The two middlewares can be bound in either order: on every
    activity, whatever the server answers and whatever the bot logic
    does, the turn has the same effects and the same outcome. *)
Theorem middlewares_commute (logic : TurnContext -> M TurnContext)
  (context : TurnContext) (w : World) :
  run_middlewares [GithubMessageTypeMiddleware; GithubEventTypeMiddleware]
    logic context w
  = run_middlewares [GithubEventTypeMiddleware; GithubMessageTypeMiddleware]
      logic context w.
Proof.
  cbn [run_middlewares onTurn].
  destruct (type (activity context)) eqn:Ht.
  - rewrite (EventType_onTurn_skips context w)
      by (left; rewrite Ht; discriminate).
    destruct (MessageType_onTurn (context, w)) as [[u|e] [c1 w1]] eqn:E;
      [|reflexivity].
    rewrite (EventType_onTurn_skips c1 w1); [reflexivity|].
    destruct (MessageType_onTurn_output _ _ _ _ _ E) as [H|H].
    + left. rewrite H, Ht. discriminate.
    + right. right. right. exact H.
  - rewrite (MessageType_onTurn_skips context w)
      by (left; rewrite Ht; discriminate).
    destruct (EventType_onTurn (context, w)) as [[u|e] [c1 w1]] eqn:E;
      [|reflexivity].
    rewrite (MessageType_onTurn_skips c1 w1); [reflexivity|].
    left. destruct (EventType_respects _ _ _ E) as (_ & _ & T & _).
    cbn [fst] in T. rewrite T, Ht. discriminate.
  - rewrite (MessageType_onTurn_skips context w)
      by (left; rewrite Ht; discriminate).
    rewrite (EventType_onTurn_skips context w)
      by (left; rewrite Ht; discriminate).
    rewrite (MessageType_onTurn_skips context w)
      by (left; rewrite Ht; discriminate).
    reflexivity.
Qed.


(** ** What the classifier matches *)

Lemma parse_plain p :
  plain p = true ->
  forall acc, RegExp.parse acc p = Some (rev acc ++ literal_pieces p).
Proof.
  unfold plain, literal_pieces. induction p as [|c p IH]; intros H acc.
  - cbn. now rewrite app_nil_r.
  - cbn [list_ascii_of_string forallb] in H.
    apply andb_true_iff in H. destruct H as [Hc Hp].
    apply negb_true_iff in Hc. apply orb_false_iff in Hc.
    destruct Hc as [Hc Hplus]. apply orb_false_iff in Hc.
    destruct Hc as [Hmeta Hback].
    cbn [RegExp.parse]. rewrite Hback, Hplus, Hmeta.
    rewrite (IH Hp). cbn [rev list_ascii_of_string map].
    now rewrite <- app_assoc.
Qed.

Lemma compile_mention l :
  plain l = true ->
  RegExp.compile ("@" ++ l) "i"
  = Some {| RegExp.anchored := false;
            RegExp.pieces := literal_pieces ("@" ++ l);
            RegExp.ignoreCase := true |}
  /\ RegExp.compile ("^" ++ "@" ++ l) "i"
     = Some {| RegExp.anchored := true;
               RegExp.pieces := literal_pieces ("@" ++ l);
               RegExp.ignoreCase := true |}.
Proof.
  intros H.
  assert (P : plain ("@" ++ l) = true) by exact H.
  unfold RegExp.compile.
  cbn [append String.eqb Ascii.eqb Bool.eqb].
  change (String "@" l) with ("@" ++ l)%string.
  rewrite (parse_plain _ P []). split; reflexivity.
Qed.

Lemma match_here_literal p :
  forall s, RegExp.match_here true (literal_pieces p) s = starts_with p s.
Proof.
  unfold literal_pieces. induction p as [|c p IH]; intros s; [reflexivity|].
  cbn [list_ascii_of_string map RegExp.match_here RegExp.plus RegExp.what
         starts_with RegExp.atom_matches].
  destruct s as [|d s]; [reflexivity|].
  destruct (RegExp.canonicalize c =? RegExp.canonicalize d);
    [apply IH|reflexivity].
Qed.

Lemma search_literal p :
  forall s,
    match RegExp.search true (literal_pieces p) s with
    | Some _ => true
    | None => false
    end = contains p s.
Proof.
  induction s as [|d s IH].
  - cbn [RegExp.search contains]. rewrite match_here_literal.
    destruct (starts_with p ""); reflexivity.
  - cbn [RegExp.search contains]. rewrite match_here_literal.
    destruct (starts_with p (String d s)); [reflexivity|].
    rewrite <- IH. destruct (RegExp.search _ _ s) as [[pre r]|]; reflexivity.
Qed.

Lemma spaces_spec s :
  (fix more (s : string) : option string :=
     match s with
     | EmptyString => None
     | String c s' =>
         if RegExp.atom_matches false RegExp.Space c then
           match more s' with
           | Some r => Some r
           | None => Some s'
           end
         else None
     end) s
  = match s with
    | String c s' => if RegExp.is_space c then Some (ltrim s') else None
    | EmptyString => None
    end.
Proof.
  induction s as [|c s IH]; [reflexivity|].
  cbv beta iota fix. rewrite IH. cbn [RegExp.atom_matches].
  destruct (RegExp.is_space c); [|reflexivity].
  destruct s as [|d s]; [reflexivity|].
  cbn [ltrim]. destruct (RegExp.is_space d); reflexivity.
Qed.

Lemma remove_spaces re s :
  RegExp.compile "^\s+" "" = Some re -> RegExp.remove re s = ltrim s.
Proof.
  intros [= <-]. unfold RegExp.remove, RegExp.exec.
  cbn [RegExp.anchored RegExp.ignoreCase RegExp.pieces rev app
         RegExp.match_here RegExp.plus RegExp.what].
  rewrite spaces_spec. destruct s as [|c s]; [reflexivity|].
  cbn [ltrim]. destruct (RegExp.is_space c); reflexivity.
Qed.

Lemma remove_colon re s :
  RegExp.compile "^:\s+" "" = Some re -> RegExp.remove re s = strip_colon s.
Proof.
  intros [= <-]. unfold RegExp.remove, RegExp.exec.
  cbn [RegExp.anchored RegExp.ignoreCase RegExp.pieces rev app
         RegExp.match_here RegExp.plus RegExp.what].
  destruct s as [|c s]; [reflexivity|].
  cbn [RegExp.atom_matches strip_colon]. rewrite (Ascii.eqb_sym ":" c).
  destruct (Ascii.eqb c ":"); cbn [andb].
  - rewrite spaces_spec. destruct s as [|d s]; [reflexivity|].
    destruct (RegExp.is_space d); reflexivity.
  - destruct s; reflexivity.
Qed.

Lemma strip_mention_spec s :
  remove_all ["^\s+"; "^:\s+"; "^\s+"]%string s
  = ret (ltrim (strip_colon (ltrim s))).
Proof.
  unfold remove_all. cbn [fold_left].
  unfold new_RegExp.
  destruct (RegExp.compile "^\s+" "") as [re1|] eqn:E1; [|discriminate E1].
  destruct (RegExp.compile "^:\s+" "") as [re2|] eqn:E2; [|discriminate E2].
  cbv [bind ret].
  rewrite (remove_spaces re1 _ E1), (remove_colon re2 _ E2),
    (remove_spaces re1 _ E1).
  reflexivity.
Qed.

Lemma starts_with_nonempty p s rest :
  p <> ""%string -> starts_with p s = Some rest -> s <> ""%string.
Proof.
  destruct p as [|c p]; [congruence|]. destruct s; [discriminate|discriminate].
Qed.

Section PlainLogin.

Variables (a : Activity) (ts : TurnState) (w : World) (bot : Identity).
Variable s : string.
Hypothesis is_message : type a = Message.
Hypothesis has_payload : is_Some (channelData a) = true.
Hypothesis known : identity (this w) = Some bot.
Hypothesis has_login : login bot <> ""%string.
Hypothesis plain_login : plain (login bot) = true.
Hypothesis has_text : text a = Some s.

Lemma MessageType_onTurn_plain :
  MessageType_onTurn ({| activity := a; turnState := ts |}, w)
  = match starts_with ("@" ++ login bot) s with
    | Some rest =>
        (Return tt,
         ({| activity :=
               set_text (Some (ltrim (strip_colon (ltrim rest))))
                 (set_botkitEventType "direct_mention" a);
             turnState := ts |}, w))
    | None =>
        if contains ("@" ++ login bot) s then
          (Return tt,
           ({| activity := set_botkitEventType "mention" a;
               turnState := ts |}, w))
        else
          (Return tt,
           ({| activity :=
                 match s with
                 | String "/" (String c rest) =>
                     if (Ascii.eqb c "w" || Ascii.eqb c "W")%bool then
                       set_text (Some (String c rest))
                         (set_type Event
                            (set_botkitEventType "slash_command" a))
                     else a
                 | _ => a
                 end;
               turnState := ts |}, w))
    end.
Proof.
  destruct (compile_mention (login bot) plain_login) as [Cm Cd].
  pose proof (match_here_literal ("@" ++ login bot) s) as Hd.
  pose proof (search_literal ("@" ++ login bot) s) as Hm.
  destruct (starts_with ("@" ++ login bot) s) as [rest|] eqn:Es.
  - unfold MessageType_onTurn. unfold bind at 1. unfold get_activity at 1.
    cbn [activity]. rewrite is_message, has_payload.
    unfold bind at 1. unfold in_world at 1.
    rewrite (getBotUserFromAPI_cached w bot known).
    unfold new_RegExp at 1. rewrite Cm. unfold bind at 1, ret at 1.
    unfold new_RegExp at 1. rewrite Cd. unfold bind at 1, ret at 1.
    change (new_RegExp_literal "^\/\w+" "i")
      with (@ret Turn _
              {| RegExp.anchored := true;
                 RegExp.pieces :=
                   [{| RegExp.what := RegExp.Lit "/";
                       RegExp.plus := false |};
                    {| RegExp.what := RegExp.Lit "w";
                       RegExp.plus := true |}];
                 RegExp.ignoreCase := true |}).
    unfold bind at 1, ret at 1.
    rewrite has_text. unfold text_matches at 1.
    unfold RegExp.test at 1, RegExp.exec at 1.
    cbn [RegExp.anchored RegExp.ignoreCase RegExp.pieces]. rewrite Hd.
    assert (Hs : (s =? "")%string = false).
    { apply String.eqb_neq. eapply starts_with_nonempty; [|exact Es].
      discriminate. }
    apply truthy_Some in has_login. rewrite has_login, Hs. cbn [negb andb].
    unfold RegExp.remove at 1, RegExp.exec at 1.
    cbn [RegExp.anchored RegExp.ignoreCase RegExp.pieces]. rewrite Hd.
    cbn [append]. rewrite strip_mention_spec. reflexivity.
  - assert (Nd : RegExp.test
                   {| RegExp.anchored := true;
                      RegExp.pieces := literal_pieces ("@" ++ login bot);
                      RegExp.ignoreCase := true |} s = false).
    { unfold RegExp.test, RegExp.exec.
      cbn [RegExp.anchored RegExp.ignoreCase RegExp.pieces].
      now rewrite Hd. }
    destruct (contains ("@" ++ login bot) s) eqn:Ec.
    + unfold MessageType_onTurn. unfold bind at 1. unfold get_activity at 1.
      cbn [activity]. rewrite is_message, has_payload.
      unfold bind at 1. unfold in_world at 1.
      rewrite (getBotUserFromAPI_cached w bot known).
      unfold new_RegExp at 1. rewrite Cm. unfold bind at 1, ret at 1.
      unfold new_RegExp at 1. rewrite Cd. unfold bind at 1, ret at 1.
      change (new_RegExp_literal "^\/\w+" "i")
        with (@ret Turn _
                {| RegExp.anchored := true;
                   RegExp.pieces :=
                     [{| RegExp.what := RegExp.Lit "/";
                         RegExp.plus := false |};
                      {| RegExp.what := RegExp.Lit "w";
                         RegExp.plus := true |}];
                   RegExp.ignoreCase := true |}).
      unfold bind at 1, ret at 1.
      rewrite has_text. unfold text_matches at 1 2.
      rewrite Nd, andb_false_r.
      unfold RegExp.test at 1, RegExp.exec at 1.
      cbn [RegExp.anchored RegExp.ignoreCase RegExp.pieces].
      assert (Hs : (s =? "")%string = false).
      { destruct s; [discriminate Ec|reflexivity]. }
      apply truthy_Some in has_login. rewrite has_login, Hs.
      cbn [negb andb].
      destruct (RegExp.search true _ s); [reflexivity|discriminate Hm].
    + apply (MessageType_onTurn_unmentioned a ts w bot _ _ s
               is_message has_payload known Cm Cd has_text Nd).
      unfold RegExp.test, RegExp.exec.
      cbn [RegExp.anchored RegExp.ignoreCase RegExp.pieces].
      destruct (RegExp.search true _ s); [discriminate Hm|reflexivity].
Qed.

End PlainLogin.


(** X23. When the login of the bot has no character that is special in
    a regular expression, a message whose text starts with an at-sign
    and the login, in any letter case, is tagged [direct_mention]; its
    text loses the mention, the white space after it, then a colon with
    the white space after it, and is message-kind as before. *)
Theorem MessageType_onTurn_direct_mention (a : Activity) (ts : TurnState)
  (w : World) (bot : Identity) (s rest : string) :
  type a = Message -> is_Some (channelData a) = true ->
  identity (this w) = Some bot ->
  login bot <> ""%string -> plain (login bot) = true ->
  text a = Some s ->
  starts_with ("@" ++ login bot) s = Some rest ->
  MessageType_onTurn ({| activity := a; turnState := ts |}, w)
  = (Return tt,
     ({| activity :=
           set_text (Some (ltrim (strip_colon (ltrim rest))))
             (set_botkitEventType "direct_mention" a);
         turnState := ts |}, w)).
Proof.
  intros Hm Hp Hi Hl Hpl Ht Hs.
  rewrite (MessageType_onTurn_plain a ts w bot s Hm Hp Hi Hl Hpl Ht), Hs.
  reflexivity.
Qed.

Lemma MessageType_onTurn_direct_mention_witness :
  let w := Sample.world (Sample.adapter None (Some "tok") (Some Sample.mybot))
             Sample.accepting in
  let a := Sample.message 99 "@MyBot:  deploy now" in
  MessageType_onTurn (Sample.turn a, w)
  = (Return tt,
     ({| activity :=
           set_text (Some "deploy now"%string)
             (set_botkitEventType "direct_mention" a);
         turnState := {| httpStatus := Some 200; httpBody := None |} |}, w)).
Proof.
  intros w a.
  apply (MessageType_onTurn_direct_mention a _ w Sample.mybot
           "@MyBot:  deploy now" ":  deploy now");
    try reflexivity.
  discriminate.
Defined.

(** X24. A message whose text has the mention somewhere, but not at its
    start, is tagged [mention] and is otherwise unchanged. *)
Theorem MessageType_onTurn_mention (a : Activity) (ts : TurnState)
  (w : World) (bot : Identity) (s : string) :
  type a = Message -> is_Some (channelData a) = true ->
  identity (this w) = Some bot ->
  login bot <> ""%string -> plain (login bot) = true ->
  text a = Some s ->
  starts_with ("@" ++ login bot) s = None ->
  contains ("@" ++ login bot) s = true ->
  MessageType_onTurn ({| activity := a; turnState := ts |}, w)
  = (Return tt,
     ({| activity := set_botkitEventType "mention" a; turnState := ts |}, w)).
Proof.
  intros Hm Hp Hi Hl Hpl Ht Hs Hc.
  rewrite (MessageType_onTurn_plain a ts w bot s Hm Hp Hi Hl Hpl Ht), Hs, Hc.
  reflexivity.
Qed.

Lemma MessageType_onTurn_mention_witness :
  let w := Sample.world (Sample.adapter None (Some "tok") (Some Sample.mybot))
             Sample.accepting in
  let a := Sample.message 99 "please @mybot look" in
  MessageType_onTurn (Sample.turn a, w)
  = (Return tt,
     ({| activity := set_botkitEventType "mention" a;
         turnState := {| httpStatus := Some 200; httpBody := None |} |}, w)).
Proof.
  intros w a.
  apply (MessageType_onTurn_mention a _ w Sample.mybot "please @mybot look");
    try reflexivity.
  discriminate.
Defined.

(** X25. A message that does not mention the bot is tagged
    [slash_command], made event-kind and stripped of its slash when its
    text starts with a slash and the letter w, in either case; every
    other text, also one that starts with a slash and another word,
    leaves the activity as it was. *)
Theorem MessageType_onTurn_no_mention (a : Activity) (ts : TurnState)
  (w : World) (bot : Identity) (s : string) :
  type a = Message -> is_Some (channelData a) = true ->
  identity (this w) = Some bot ->
  login bot <> ""%string -> plain (login bot) = true ->
  text a = Some s ->
  contains ("@" ++ login bot) s = false ->
  MessageType_onTurn ({| activity := a; turnState := ts |}, w)
  = (Return tt,
     ({| activity :=
           match s with
           | String "/" (String c rest) =>
               if (Ascii.eqb c "w" || Ascii.eqb c "W")%bool then
                 set_text (Some (String c rest))
                   (set_type Event (set_botkitEventType "slash_command" a))
               else a
           | _ => a
           end;
         turnState := ts |}, w)).
Proof.
  intros Hm Hp Hi Hl Hpl Ht Hc.
  rewrite (MessageType_onTurn_plain a ts w bot s Hm Hp Hi Hl Hpl Ht), Hc.
  destruct (starts_with ("@" ++ login bot) s) eqn:Hs; [|reflexivity].
  destruct s as [|d s']; cbn [contains] in Hc; rewrite Hs in Hc;
    discriminate Hc.
Qed.

Lemma MessageType_onTurn_no_mention_witness :
  let w := Sample.world (Sample.adapter None (Some "tok") (Some Sample.mybot))
             Sample.accepting in
  let a := Sample.message 99 "/deploy now" in
  MessageType_onTurn (Sample.turn a, w) = (Return tt, (Sample.turn a, w)).
Proof.
  intros w a.
  apply (MessageType_onTurn_no_mention a _ w Sample.mybot "/deploy now");
    try reflexivity.
  discriminate.
Defined.

(** X26. The classifier passes over every activity that is not
    message-kind or has no payload, without asking for the identity of
    the bot. *)
Theorem MessageType_onTurn_passes_over (context : TurnContext) (w : World) :
  type (activity context) <> Message
  \/ channelData (activity context) = None ->
  MessageType_onTurn (context, w) = (Return tt, (context, w)).
Proof.
  intros H. unfold MessageType_onTurn. unfold bind at 1, get_activity at 1.
  destruct (type (activity context)) eqn:Ht; try reflexivity.
  destruct H as [H|H]; [congruence|]. rewrite H. reflexivity.
Qed.

Lemma MessageType_onTurn_passes_over_witness :
  let w := Sample.world (Sample.adapter None None None) Sample.failing in
  let context :=
    Sample.turn (Sample.event "push" (Sample.pull_request_event None)) in
  MessageType_onTurn (context, w) = (Return tt, (context, w)).
Proof.
  intros w context. apply MessageType_onTurn_passes_over.
  left. discriminate.
Defined.


(** ** Events other than comments *)

(** X27. Every event other than [issue_comment] whose payload names the
    repository and the sender becomes an event-kind activity without
    text: its id is the full name of the repository, its label the name
    of the event, and its conversation has the delivery id for an id and
    neither type nor repository. This is the activity that the turn is
    run on. *)
Theorem processActivity_other_event (req : Request) (ev : Payload)
  (full_name : string) (by_whom : GithubUser) (user : Identity) (w : World) :
  string_in (header req "X-Github-Event") ["issue_comment"%string] = false ->
  req_body req = Some ev ->
  repository ev = Some full_name -> sender ev = Some by_whom ->
  exists a,
    event_activity (header req "X-Github-Event") req w = (Return a, w)
    /\ type a = Event /\ text a = None
    /\ id a = Some (Str full_name)
    /\ label a = header req "X-Github-Event"
    /\ channelData a = Some ev
    /\ conversation a
       = Some {| isGroup := None;
                 conversationType := None;
                 conversation_id :=
                   option_map Str (header req "X-Github-Delivery");
                 repo := None |}
    /\ forall logic w0,
         verifySignature req w0 = (Return true, w0) ->
         getBotUserFromAPI w0 = (Return user, w) ->
         processActivity req logic w0
         = (context <- run_turn a logic ;; send_response context) w.
Proof.
  intros He Hb Hr Hs. eexists. split.
  { unfold event_activity. rewrite Hb, Hr, Hs. reflexivity. }
  cbn [type text id label channelData conversation].
  do 6 (split; [reflexivity|]).
  intros logic w0 V G. unfold processActivity.
  rewrite (bind_Return _ _ _ _ _ V). cbn [negb]. unfold receive.
  rewrite (bind_Return _ _ _ _ _ G). rewrite He.
  unfold bind at 1. unfold event_activity. rewrite Hb, Hr, Hs.
  reflexivity.
Qed.

Lemma processActivity_other_event_witness :
  let req := Cases.event_request "push" "delivery-1"
               (Sample.pull_request_event None) in
  let w := Sample.world (Sample.adapter None (Some "tok") (Some Sample.mybot))
             Sample.accepting in
  exists a,
    event_activity (header req "X-Github-Event") req w = (Return a, w)
    /\ type a = Event /\ text a = None
    /\ id a = Some (Str "o/r")
    /\ label a = Some "push"%string
    /\ channelData a = Some (Sample.pull_request_event None)
    /\ conversation a
       = Some {| isGroup := None;
                 conversationType := None;
                 conversation_id := Some (Str "delivery-1");
                 repo := None |}
    /\ forall logic w0,
         verifySignature req w0 = (Return true, w0) ->
         getBotUserFromAPI w0 = (Return Sample.mybot, w) ->
         processActivity req logic w0
         = (context <- run_turn a logic ;; send_response context) w.
Proof.
  intros req w.
  apply (processActivity_other_event req (Sample.pull_request_event None)
           "o/r" Sample.alice Sample.mybot w); reflexivity.
Defined.

(** X28. A reply into the conversation of such an activity, as it was
    built, cannot be sent: the mapping raises, because the conversation
    names no repository. *)
Theorem event_activity_takes_no_reply (eventType : option string)
  (req : Request) (w : World) (a : Activity) (w' : World) (m : Activity) :
  event_activity eventType req w = (Return a, w') ->
  conversation m = conversation a ->
  activityToGithub m
  = Throw (TypeError "Cannot read property 'split' of undefined").
Proof.
  unfold event_activity. destruct (req_body req) as [ev|]; [|discriminate].
  destruct (repository ev); [|discriminate].
  destruct (sender ev); [|discriminate].
  intros [= <- _] Hc. unfold activityToGithub. rewrite Hc. reflexivity.
Qed.

Lemma event_activity_takes_no_reply_witness :
  let req := Cases.event_request "push" "delivery-1"
               (Sample.pull_request_event None) in
  let w := Sample.world (Sample.adapter None (Some "tok") (Some Sample.mybot))
             Sample.accepting in
  activityToGithub
    (Sample.reply (Sample.event "push" (Sample.pull_request_event None))
       "thanks")
  = Throw (TypeError "Cannot read property 'split' of undefined").
Proof.
  intros req w.
  refine (event_activity_takes_no_reply (Some "push"%string) req w _ w _ _ _).
  - reflexivity.
  - reflexivity.
Defined.

(** X29. After the tagger, a [pull_request] event takes replies: a
    message into the conversation of the tagged activity is sent as a
    comment on the pull request, by its number, in the repository of
    the payload. *)
Theorem pull_request_takes_replies (context : TurnContext) (w : World)
  (cd : Payload) (c : ConversationAccount) (n : Z) (o r : string) :
  type (activity context) = Event ->
  label (activity context) = Some "pull_request"%string ->
  channelData (activity context) = Some cd ->
  botkitEventType cd <> Some "slash_command"%string ->
  conversation (activity context) = Some c ->
  number cd = Some n -> repository cd = Some (o ++ "/" ++ r)%string ->
  has_no "/" o = true -> has_no "/" r = true ->
  exists context',
    EventType_onTurn (context, w) = (Return tt, (context', w))
    /\ forall m,
         type m = Message ->
         conversation m = conversation (activity context') ->
         outbound m
         = Some (issues_createComment (Some o) (Some r) (Some (Num n))
                   (if truthy (text m) then text m else None)).
Proof.
  intros Ht Hl Hcd Hs Hc Hn Hr Ho Hrn. destruct context as [a ts].
  cbn [activity] in *.
  assert (E : exists t,
    EventType_onTurn ({| activity := a; turnState := ts |}, w)
    = (Return tt,
       ({| activity :=
             set_conversation
               {| isGroup := Some true;
                  conversationType := Some "pull_request"%string;
                  conversation_id := Some (Num n);
                  repo := Some (o ++ "/" ++ r)%string |}
               (set_botkitEventType t a);
           turnState := ts |}, w))).
  { unfold EventType_onTurn. unfold bind at 1, get_activity at 1.
    cbn [activity]. rewrite Ht, Hl, Hcd, (neq_string_true _ _ Hs).
    change (truthy (Some "pull_request"%string)) with true. cbn [andb].
    change ("pull_request" =? "pull_request")%string with true. cbv iota.
    rewrite Hr, Hn.
    destruct (action cd) as [act|];
      [destruct (truthy (Some act))|];
      (eexists;
       cbv [bind ret throw assign_conversation get_activity modify_activity];
       cbn [activity set_botkitEventType conversation set_conversation
              turnState];
       rewrite Hc; reflexivity). }
  destruct E as [t E]. eexists. split; [exact E|].
  cbn [activity set_conversation conversation]. intros m Hm Hcm.
  unfold outbound.
  rewrite (activityToGithub_target m _ o r Hcm eq_refl Ho Hrn).
  reflexivity.
Qed.

Lemma pull_request_takes_replies_witness :
  let w := Sample.world (Sample.adapter None (Some "tok") None)
             Sample.accepting in
  let context :=
    Sample.turn (Sample.event "pull_request"
                   (Sample.pull_request_event (Some "opened"))) in
  exists context',
    EventType_onTurn (context, w) = (Return tt, (context', w))
    /\ forall m,
         type m = Message ->
         conversation m = conversation (activity context') ->
         outbound m
         = Some (issues_createComment (Some "o"%string) (Some "r"%string)
                   (Some (Num 3))
                   (if truthy (text m) then text m else None)).
Proof.
  intros w context.
  apply (pull_request_takes_replies context w
           (Sample.pull_request_event (Some "opened"))
           {| isGroup := None; conversationType := None;
              conversation_id := Some (Str "delivery-1"); repo := None |}
           3 "o" "r");
    try reflexivity.
  discriminate.
Defined.

(** ** The [spawn] middleware *)

(** X30. [spawn] never raises and always ends with a plain call of
    [next]. When a client can be had it is stored in [bot.api] and that
    call is the only one; when none can be had, [next] has been called
    before with the error "Could not spawn a Github API instance", so it
    is called twice, and [bot.api] is left undefined. *)
Theorem spawn_calls_next (w : World) :
  match client_for (this w) (List.length (constructed (trace w))) with
  | Some o =>
      exists w', spawn w = (Return (Some o, [None]), w')
  | None =>
      spawn w
      = (Return
           (None,
            [Some (Error "Could not spawn a Github API instance"); None]), w)
  end.
Proof.
  unfold spawn, try_catch. unfold bind. rewrite getAPI_spec.
  destruct (client_for (this w) _) as [o|]; [|reflexivity].
  eexists. reflexivity.
Qed.


(** ** The whole turn *)

Lemma later_world_refl (s : Turn) : later (snd s) (snd s).
Proof. apply later_refl. Qed.

Lemma later_world_trans (s1 s2 s3 : Turn) :
  later (snd s1) (snd s2) -> later (snd s2) (snd s3) ->
  later (snd s1) (snd s3).
Proof. apply later_trans. Qed.

Lemma in_world_keeps {A : Type} (m : M A) :
  keeps m -> respects (fun s s' : Turn => later (snd s) (snd s')) (in_world m).
Proof.
  intros H [c w] r [c' w']. unfold in_world.
  destruct (m w) as [r0 w0] eqn:E. intros [= _ _ <-]. exact (H _ _ _ E).
Qed.

Lemma modify_activity_world f :
  respects (fun s s' : Turn => later (snd s) (snd s')) (modify_activity f).
Proof. intros [c w] r s' [= _ <-]. apply later_refl. Qed.

Lemma get_activity_world :
  respects (fun s s' : Turn => later (snd s) (snd s')) get_activity.
Proof. intros [c w] r s' [= _ <-]. apply later_refl. Qed.

Ltac world_step :=
  first
    [ apply get_activity_world
    | apply modify_activity_world
    | apply (in_world_keeps _ keeps_getBotUserFromAPI)
    | apply (respects_ret _ later_world_refl)
    | apply (respects_throw _ later_world_refl)
    | apply (respects_bind _ later_world_trans); [|intros ?]
    | match goal with
      | |- respects _ (remove_all ["^\s+"; "^:\s+"; "^\s+"]%string ?s) =>
          destruct (strip_mention_computes s) as [? ->]
      | |- respects _ (remove_all ["^\/"]%string ?s) =>
          destruct (strip_slash_computes s) as [? ->]
      | |- respects _ (new_RegExp _ _) => unfold new_RegExp
      | |- respects _ (new_RegExp_literal _ _) => unfold new_RegExp_literal
      | |- respects _ (match ?x with _ => _ end) => destruct x
      | |- respects _ (if ?x then _ else _) => destruct x
      end ].

Lemma onTurn_world m :
  respects (fun s s' : Turn => later (snd s) (snd s')) (onTurn m).
Proof.
  destruct m; cbn [onTurn].
  - unfold MessageType_onTurn. repeat world_step.
  - intros s r s' E. destruct (EventType_respects _ _ _ E) as [-> _].
    apply later_refl.
Qed.

Lemma keeps_run_middlewares ms logic :
  (forall c, keeps (logic c)) ->
  forall context, keeps (run_middlewares ms logic context).
Proof.
  intros Hl. induction ms as [|m ms IH]; intros context; cbn [run_middlewares].
  - apply keeps_bind; [apply keeps_emit|intros _; apply Hl].
  - intros w r w'.
    destruct (onTurn m (context, w)) as [[u|e] [c1 w1]] eqn:E; intros H.
    + eapply later_trans; [exact (onTurn_world m _ _ _ E)|].
      eapply IH; eassumption.
    + injection H as _ <-. exact (onTurn_world m _ _ _ E).
Qed.

Lemma keeps_send_response context : keeps (send_response context).
Proof.
  unfold send_response.
  apply keeps_bind; [apply keeps_emit|intros _].
  destruct (httpBody (turnState context)) as [b|]; [|apply keeps_emit].
  destruct (truthy (Some b)); apply keeps_emit.
Qed.

Lemma keeps_run_turn a logic :
  (forall c, keeps (logic c)) -> keeps (run_turn a logic).
Proof.
  intros Hl. unfold run_turn, runMiddleware.
  apply keeps_bind; [apply keeps_get_this|intros ad].
  now apply keeps_run_middlewares.
Qed.

(** X10. A bot logic that leaves the configuration of the adapter alone
    makes [processActivity] leave it alone, with either middleware
    bound, in any order and any number: the options, the [octokit]
    field, the middlewares and the server are as before, a cached
    identity is still cached, and the trace has only grown. *)
Theorem processActivity_keeps_the_configuration (req : Request)
  (logic : TurnContext -> M TurnContext) :
  (forall c, keeps (logic c)) -> keeps (processActivity req logic).
Proof.
  intros Hl. unfold processActivity.
  apply keeps_bind; [apply keeps_verifySignature|intros verified].
  destruct (negb verified); [apply keeps_ret|].
  unfold receive.
  apply keeps_bind; [apply keeps_getBotUserFromAPI|intros user].
  destruct (string_in _ _).
  - apply keeps_bind.
    + unfold issue_comment_activity, undefined_property.
      destruct (req_body req) as [ev|]; [|apply keeps_throw].
      destruct (comment ev); [|apply keeps_throw].
      destruct (_ =? _); [apply keeps_ret|].
      destruct (issue ev); [|apply keeps_throw].
      destruct (repository ev); [apply keeps_ret|apply keeps_throw].
    + intros [a|]; [|apply keeps_ret].
      apply keeps_bind; [now apply keeps_run_turn|].
      intros c. apply keeps_send_response.
  - apply keeps_bind.
    + unfold event_activity, undefined_property.
      destruct (req_body req) as [ev|]; [|apply keeps_throw].
      destruct (repository ev); [|apply keeps_throw].
      destruct (sender ev); [apply keeps_ret|apply keeps_throw].
    + intros a. apply keeps_bind; [now apply keeps_run_turn|].
      intros c. apply keeps_send_response.
Qed.

Lemma processActivity_keeps_the_configuration_witness :
  keeps (processActivity
           (Sample.issue_comment_request [] None
              (Sample.comment_event Sample.alice "hello")) Sample.quiet).
Proof.
  apply processActivity_keeps_the_configuration.
  intros c. apply keeps_ret.
Defined.
